(** * A Kafka consumer client for a Grafana datasource: model and properties

    This development embeds the two Go source files of the repository,

    - [src/pkg/kafka_client/client.go], embedded as [Module GroupClient]
      (the reader joins the consumer group and starts at the broker's
      first-offset sentinel for policy "earliest"), and
    - [src/unnamed/part_000], embedded as [Module LookbackClient]
      (the reader is opened without a group and, for policy "earliest",
      starts at most [maxEarliest] messages behind the high watermark),

    as state-passing functions over an explicit store, and proves the
    properties of the specification about them.

    The kafka-go library, the scram package, encoding/json and the Go
    runtime's timers are not part of the repository.  Of kafka-go the
    model has what the client relies on: the checks and defaults of
    [kafka.NewReader], the conditions under which [SetOffset] fails, a
    store of the objects the library allocates ([World]) and a trace of
    the calls made to it; what the brokers and the scram package answer
    is a record of answers ([Env]).  Of encoding/json it has the decoder
    of a message body into [map[string]float64] ([Module json]). *)

From Stdlib Require Import ZArith NArith String Ascii List Bool Lia PrimFloat.
From stdpp Require Import base option list strings gmap pretty.

Local Open Scope Z_scope.
Local Open Scope string_scope.

(** ** Go values *)

(** [int64] arithmetic wraps around. *)
Definition int64_min : Z := - 2 ^ 63.
Definition int64_max : Z := 2 ^ 63 - 1.
Definition wrap64 (z : Z) : Z := (z + 2 ^ 63) mod 2 ^ 64 - 2 ^ 63.
Definition sub64 (a b : Z) : Z := wrap64 (a - b).

(** [time.Duration] counts nanoseconds; [time.Time] is kept as an
    integer instant whose zero value is [0]. *)
Module time.
Definition Duration := Z.
Definition Time := Z.
Definition Millisecond : Duration := 1000000.
Definition Second : Duration := 1000000000.
End time.

(** An argument of [fmt.Errorf], tagged with the verb that consumes it. *)
Inductive fmtarg (E : Type) : Type :=
| ArgS (s : string)        (* %s *)
| ArgD (n : Z)             (* %d *)
| ArgV (e : option E)      (* %v: the error is printed, not wrapped *)
| ArgW (e : option E).     (* %w: the error is wrapped; it may be nil *)
Arguments ArgS {E} s.
Arguments ArgD {E} n.
Arguments ArgV {E} e.
Arguments ArgW {E} e.

(** A Go [error] value: made by a library, or by [fmt.Errorf]. *)
#[warnings="-register-all"]
Inductive error : Type :=
| LibError (msg : string)
| Errorf (format : string) (args : list (fmtarg error)).

(** [errors.Unwrap]: the operand of the first [%w], if any. *)
Fixpoint wrapped_arg (args : list (fmtarg error)) : option error :=
  match args with
  | [] => None
  | ArgW e :: _ => e
  | _ :: rest => wrapped_arg rest
  end.

Definition Unwrap (e : error) : option error :=
  match e with
  | LibError _ => None
  | Errorf _ args => wrapped_arg args
  end.

(** [strings.Split s ","] for a one-byte separator. *)
Fixpoint split_on (sep : ascii) (acc s : string) : list string :=
  match s with
  | EmptyString => [String.rev acc]
  | String c rest =>
      if Ascii.eqb c sep then String.rev acc :: split_on sep EmptyString rest
      else split_on sep (String c acc) rest
  end.

Definition strings_Split (s : string) (sep : ascii) : list string :=
  split_on sep EmptyString s.

(** [strings.ToLower] on the ASCII letters; other bytes are kept.  The
    result is only compared with the ASCII words "debug" and "error". *)
Definition lower_ascii (c : ascii) : ascii :=
  let n := nat_of_ascii c in
  if (Nat.leb 65 n && Nat.leb n 90)%bool then ascii_of_nat (n + 32) else c.

Fixpoint strings_ToLower (s : string) : string :=
  match s with
  | EmptyString => EmptyString
  | String c rest => String (lower_ascii c) (strings_ToLower rest)
  end.

(** ** encoding/json, as far as [ConsumerPull] uses it

    [json.Unmarshal(data, &v)] for [v] of type [map[string]float64]: the
    text is checked against the JSON grammar first, and only a valid text
    is decoded into the map. *)

Module json.

#[warnings="-register-all"]
Inductive Value :=
| Null
| Bool (b : bool)
| Number (literal : string)
| String_ (s : string)
| Array (items : list Value)
| Object (members : list (string * Value)).

Definition code (c : ascii) : N := N_of_ascii c.
Definition byte (n : N) : ascii := ascii_of_N n.

Definition quote : ascii := byte 34.
Definition backslash : ascii := byte 92.

Definition is_space (c : ascii) : bool :=
  let n := code c in
  (N.eqb n 32 || N.eqb n 9 || N.eqb n 13 || N.eqb n 10)%bool.

Fixpoint skip_space (s : string) : string :=
  match s with
  | String c rest => if is_space c then skip_space rest else s
  | EmptyString => s
  end.

Definition between (lo hi : N) (c : ascii) : bool :=
  (N.leb lo (code c) && N.leb (code c) hi)%bool.

Definition is_digit (c : ascii) : bool := between 48 57 c.

Definition hex_value (c : ascii) : option N :=
  let n := code c in
  if between 48 57 c then Some (n - 48)%N
  else if between 97 102 c then Some (n - 87)%N
  else if between 65 70 c then Some (n - 55)%N
  else None.

(** Four hexadecimal digits. *)
Definition hex4 (s : string) : option (N * string) :=
  match s with
  | String a (String b (String c (String d rest))) =>
      match hex_value a, hex_value b, hex_value c, hex_value d with
      | Some a, Some b, Some c, Some d =>
          Some ((a * 4096 + b * 256 + c * 16 + d)%N, rest)
      | _, _, _, _ => None
      end
  | _ => None
  end.

(** [getu4]: a whole u-escape at the head of the string. *)
Definition getu4 (s : string) : option (N * string) :=
  match s with
  | String b (String "u" rest) => if Ascii.eqb b backslash then hex4 rest else None
  | _ => None
  end.

(** [utf8.EncodeRune] for a valid rune. *)
Definition encode_rune (r : N) : string :=
  (if r <? 128 then String (byte r) EmptyString
   else if r <? 2048 then
     String (byte (192 + r / 64)) (String (byte (128 + r mod 64)) EmptyString)
   else if r <? 65536 then
     String (byte (224 + r / 4096))
       (String (byte (128 + (r / 64) mod 64))
          (String (byte (128 + r mod 64)) EmptyString))
   else
     String (byte (240 + r / 262144))
       (String (byte (128 + (r / 4096) mod 64))
          (String (byte (128 + (r / 64) mod 64))
             (String (byte (128 + r mod 64)) EmptyString))))%N.

(** U+FFFD, which stands in for bytes that are not UTF-8 and for lone
    surrogates. *)
Definition replacement : string := encode_rune 65533.

(** [utf8.DecodeRune] on a string that starts with a byte above 127: the
    bytes of the first rune and the rest, if the rune is well formed. *)
Definition utf8_rune (s : string) : option (string * string) :=
  match s with
  | String a (String b rest) =>
      if between 194 223 a then
        if between 128 191 b then Some (String a (String b EmptyString), rest) else None
      else
        match rest with
        | String c rest' =>
            let three := Some (String a (String b (String c EmptyString)), rest') in
            if between 224 239 a then
              if negb (between 128 191 c) then None
              else if N.eqb (code a) 224 then (if between 160 191 b then three else None)
              else if N.eqb (code a) 237 then (if between 128 159 b then three else None)
              else (if between 128 191 b then three else None)
            else
              match rest' with
              | String d rest'' =>
                  let four :=
                    Some (String a (String b (String c (String d EmptyString))), rest'') in
                  if between 240 244 a then
                    if negb (between 128 191 c && between 128 191 d) then None
                    else if N.eqb (code a) 240 then (if between 144 191 b then four else None)
                    else if N.eqb (code a) 244 then (if between 128 143 b then four else None)
                    else (if between 128 191 b then four else None)
                  else None
              | EmptyString => None
              end
        | EmptyString => None
        end
  | _ => None
  end.

(** A string literal after its opening quote: the text it denotes and
    what follows the closing quote.  [acc] is the text so far, reversed. *)
Fixpoint string_body (fuel : nat) (s acc : string) : option (string * string) :=
  match fuel with
  | O => None
  | S fuel =>
      match s with
      | EmptyString => None
      | String c rest =>
          if Ascii.eqb c quote then Some (String.rev acc, rest)
          else if Ascii.eqb c backslash then
            match rest with
            | EmptyString => None
            | String e rest' =>
                let plain (x : ascii) := string_body fuel rest' (String x acc) in
                if Ascii.eqb e quote then plain e
                else if Ascii.eqb e backslash then plain e
                else if Ascii.eqb e "/" then plain e
                else if Ascii.eqb e "b" then plain (byte 8)
                else if Ascii.eqb e "f" then plain (byte 12)
                else if Ascii.eqb e "n" then plain (byte 10)
                else if Ascii.eqb e "r" then plain (byte 13)
                else if Ascii.eqb e "t" then plain (byte 9)
                else if Ascii.eqb e "u" then
                  match hex4 rest' with
                  | None => None
                  | Some (r, after) =>
                      if (N.leb 55296 r && N.ltb r 57344)%bool then
                        (* a surrogate: one rune with the escape that
                           follows, or the replacement character *)
                        match getu4 after with
                        | Some (r2, after2) =>
                            if (N.ltb r 56320 && N.leb 56320 r2 && N.ltb r2 57344)%bool
                            then
                              string_body fuel after2
                                (String.rev_app
                                   (encode_rune
                                      (65536 + (r - 55296) * 1024 + (r2 - 56320))%N) acc)
                            else string_body fuel after (String.rev_app replacement acc)
                        | None => string_body fuel after (String.rev_app replacement acc)
                        end
                      else string_body fuel after (String.rev_app (encode_rune r) acc)
                  end
                else None
            end
          else if N.ltb (code c) 32 then None
          else if N.ltb (code c) 128 then string_body fuel rest (String c acc)
          else
            match utf8_rune s with
            | Some (bytes, after) => string_body fuel after (String.rev_app bytes acc)
            | None => string_body fuel rest (String.rev_app replacement acc)
            end
      end
  end.

Fixpoint take_digits (s : string) : string * string :=
  match s with
  | String c rest =>
      if is_digit c then let '(ds, r) := take_digits rest in (String c ds, r)
      else (EmptyString, s)
  | EmptyString => (EmptyString, s)
  end.

(** A number literal at the head of the string, by the grammar of JSON. *)
Definition scan_number (s : string) : option (string * string) :=
  let '(sign, s1) :=
    match s with
    | String "-" r => ("-", r)
    | _ => (EmptyString, s)
    end in
  let whole :=
    match s1 with
    | String c r =>
        if Ascii.eqb c "0" then Some ("0", r)
        else if is_digit c then
          let '(ds, r') := take_digits r in Some (String c ds, r')
        else None
    | EmptyString => None
    end in
  match whole with
  | None => None
  | Some (int, s2) =>
      let fraction :=
        match s2 with
        | String "." r =>
            let '(ds, r') := take_digits r in
            if String.eqb ds EmptyString then None else Some ("." ++ ds, r')
        | _ => Some (EmptyString, s2)
        end in
      match fraction with
      | None => None
      | Some (frac, s3) =>
          let exponent :=
            match s3 with
            | String e r =>
                if (Ascii.eqb e "e" || Ascii.eqb e "E")%bool then
                  let '(sg, r1) :=
                    match r with
                    | String "+" r1 => ("+", r1)
                    | String "-" r1 => ("-", r1)
                    | _ => (EmptyString, r)
                    end in
                  let '(ds, r2) := take_digits r1 in
                  if String.eqb ds EmptyString then None
                  else Some (String e sg ++ ds, r2)
                else Some (EmptyString, s3)
            | EmptyString => Some (EmptyString, s3)
            end in
          match exponent with
          | None => None
          | Some (exp, s4) => Some (sign ++ int ++ frac ++ exp, s4)
          end
      end
  end.

Definition maxNestingDepth : N := 10000.

Definition literal (word : string) (v : Value) (s : string) : option (Value * string) :=
  if String.prefix word s
  then Some (v, String.substring (String.length word)
                  (String.length s - String.length word) s)
  else None.

(** A JSON value at the head of the string, with what follows it. *)
Fixpoint value (fuel : nat) (depth : N) (s : string) {struct fuel}
  : option (Value * string) :=
  match fuel with
  | O => None
  | S fuel =>
      match skip_space s with
      | EmptyString => None
      | String c rest =>
          if Ascii.eqb c "{" then
            if N.ltb maxNestingDepth (depth + 1) then None
            else
              match skip_space rest with
              | String "}" after => Some (Object [], after)
              | _ => members fuel (depth + 1)%N rest []
              end
          else if Ascii.eqb c "[" then
            if N.ltb maxNestingDepth (depth + 1) then None
            else
              match skip_space rest with
              | String "]" after => Some (Array [], after)
              | _ => items fuel (depth + 1)%N rest []
              end
          else if Ascii.eqb c quote then
            match string_body (String.length rest) rest EmptyString with
            | Some (text, after) => Some (String_ text, after)
            | None => None
            end
          else if Ascii.eqb c "t" then literal "true" (Bool true) (String c rest)
          else if Ascii.eqb c "f" then literal "false" (Bool false) (String c rest)
          else if Ascii.eqb c "n" then literal "null" Null (String c rest)
          else
            match scan_number (String c rest) with
            | Some (lit, after) => Some (Number lit, after)
            | None => None
            end
      end
  end
with members (fuel : nat) (depth : N) (s : string) (acc : list (string * Value))
    {struct fuel} : option (Value * string) :=
  match fuel with
  | O => None
  | S fuel =>
      match skip_space s with
      | String q rest =>
          if negb (Ascii.eqb q quote) then None
          else
            match string_body (String.length rest) rest EmptyString with
            | None => None
            | Some (key, after) =>
                match skip_space after with
                | String ":" after =>
                    match value fuel depth after with
                    | None => None
                    | Some (v, after) =>
                        match skip_space after with
                        | String "," after => members fuel depth after ((key, v) :: acc)
                        | String "}" after => Some (Object (rev ((key, v) :: acc)), after)
                        | _ => None
                        end
                    end
                | _ => None
                end
            end
      | EmptyString => None
      end
  end
with items (fuel : nat) (depth : N) (s : string) (acc : list Value)
    {struct fuel} : option (Value * string) :=
  match fuel with
  | O => None
  | S fuel =>
      match value fuel depth s with
      | None => None
      | Some (v, after) =>
          match skip_space after with
          | String "," after => items fuel depth after (v :: acc)
          | String "]" after => Some (Array (rev (v :: acc)), after)
          | _ => None
          end
      end
  end.

(** [json.Valid], with the value of a valid text.  Every step of the
    parser uses up a byte of the text or is followed by one that does,
    so the fuel is never what ends it. *)
Definition parse (s : string) : option Value :=
  match value (2 * String.length s + 2) 0%N s with
  | Some (v, rest) => if String.eqb (skip_space rest) EmptyString then Some v else None
  | None => None
  end.

(** *** Numbers *)

Fixpoint digits_value (acc : Z) (ds : string) : Z :=
  match ds with
  | String c rest => digits_value (10 * acc + Z.of_N (code c - 48))%Z rest
  | EmptyString => acc
  end.

(** A literal of the grammar as sign, digits and power of ten: it denotes
    [(-1)^neg * digits * 10^exp10]; [len] is the number of digits
    written. *)
Record Decimal := { neg : bool; digits : Z; exp10 : Z; len : Z }.

Definition decimal (lit : string) : Decimal :=
  let '(sign, s1) :=
    match lit with
    | String "-" r => (true, r)
    | _ => (false, lit)
    end in
  let '(int, s2) := take_digits s1 in
  let '(frac, s3) :=
    match s2 with
    | String "." r => take_digits r
    | _ => (EmptyString, s2)
    end in
  let e :=
    match s3 with
    | String _ (String "-" r) => (- digits_value 0 (fst (take_digits r)))%Z
    | String _ (String "+" r) => digits_value 0 (fst (take_digits r))
    | String _ r => digits_value 0 (fst (take_digits r))
    | EmptyString => 0%Z
    end in
  {| neg := sign;
     digits := digits_value 0 (int ++ frac);
     exp10 := (e - Z.of_nat (String.length frac))%Z;
     len := Z.of_nat (String.length (int ++ frac)) |}.

Fixpoint float_of_positive (p : positive) : float :=
  match p with
  | xH => 1%float
  | xO p => PrimFloat.mul 2 (float_of_positive p)
  | xI p => PrimFloat.add (PrimFloat.mul 2 (float_of_positive p)) 1
  end.

Definition float_of_Z (z : Z) : float :=
  match z with
  | Zpos p => float_of_positive p
  | _ => 0%float
  end.

Definition pow2 (e : Z) : float :=
  if (0 <=? e)%Z then Z.iter e (fun f => PrimFloat.mul f 2) 1%float
  else Z.iter (- e) (fun f => PrimFloat.mul f 0.5) 1%float.

(** The float64 nearest to [num / den] (both positive), ties to even;
    [None] when that is beyond the largest float64.  The quotient is
    scaled to an integer [q] below [2^53] and a power of two [E], both of
    which are float64 values whose product is exact. *)
Definition nearest (num den : Z) : option float :=
  let l := (Z.log2 num - Z.log2 den)%Z in
  let x :=
    (if (if 0 <=? l then den * 2 ^ l <=? num else den <=? num * 2 ^ (- l))
     then l else l - 1)%Z in
  let E := Z.max (x - 52) (-1074) in
  let n := (if 0 <=? E then num else num * 2 ^ (- E))%Z in
  let d := (if 0 <=? E then den * 2 ^ E else den)%Z in
  let q := (n / d)%Z in
  let r := (n mod d)%Z in
  let q := (if (d <? 2 * r) || ((d =? 2 * r) && Z.odd q) then q + 1 else q)%Z in
  if (q =? 0)%Z then Some 0%float
  else if (1024 <=? Z.log2 q + E)%Z then None
  else Some (PrimFloat.mul (float_of_Z q) (pow2 E)).

(** [strconv.ParseFloat(lit, 64)] on a literal of the JSON grammar;
    [None] stands for its range error. *)
Definition ParseFloat (lit : string) : option float :=
  let d := decimal lit in
  let signed (f : float) := if neg d then PrimFloat.opp f else f in
  if (digits d =? 0)%Z then Some (signed 0%float)
  else if (400 <? exp10 d)%Z then None
  else if (exp10 d <? - (400 + len d))%Z then Some (signed 0%float)
  else
    let magnitude :=
      if (0 <=? exp10 d)%Z then nearest (digits d * 10 ^ exp10 d) 1
      else nearest (digits d) (10 ^ (- exp10 d)) in
    signed <$> magnitude.

(** *** Decoding into [map[string]float64] *)

(** [*json.SyntaxError]; its message, which names the offending byte, is
    not modelled. *)
Definition SyntaxError : error := LibError "invalid character".

(** [*json.UnmarshalTypeError] *)
Definition UnmarshalTypeError (value type : string) : error :=
  LibError ("json: cannot unmarshal " ++ value ++ " into Go value of type " ++ type).

Definition kind (v : Value) : string :=
  match v with
  | Null => "null"
  | Bool _ => "bool"
  | Number _ => "number"
  | String_ _ => "string"
  | Array _ => "array"
  | Object _ => "object"
  end.

(** A value decoded into a [float64] that holds zero: a number is
    stored; [null] leaves the zero without an error; anything else, and a
    number out of range, leaves the zero and reports a type error. *)
Definition element (v : Value) : float * option error :=
  match v with
  | Null => (0%float, None)
  | Number lit =>
      match ParseFloat lit with
      | Some f => (f, None)
      | None => (0%float, Some (UnmarshalTypeError ("number " ++ lit) "float64"))
      end
  | _ => (0%float, Some (UnmarshalTypeError (kind v) "float64"))
  end.

(** The members of an object, stored one after the other; the decoder
    goes on after a type error and keeps the first one. *)
Fixpoint store (members : list (string * Value)) (m : gmap string float)
    (err : option error) : gmap string float * option error :=
  match members with
  | [] => (m, err)
  | (key, v) :: rest =>
      let '(f, e) := element v in
      store rest (<[key := f]> m) (if err is Some _ then err else e)
  end.

(** [json.Unmarshal(data, &m)] for a nil map [m]: the map afterwards and
    the error. *)
Definition Unmarshal (data : string) : option (gmap string float) * option error :=
  match parse data with
  | None => (None, Some SyntaxError)
  | Some Null => (None, None)
  | Some (Object members) =>
      let '(m, err) := store members ∅ None in (Some m, err)
  | Some v => (None, Some (UnmarshalTypeError (kind v) "map[string]float64"))
  end.

End json.

(** ** The kafka-go library, as far as the client uses it *)

Definition ptr := nat.

Module sasl.
Inductive Algorithm := SHA256 | SHA512.

(** The two implementations of [sasl.Mechanism] the client builds. *)
Inductive Mechanism :=
| plain_Mechanism (Username Password : string)
| scram_mechanism (algo : Algorithm) (username password : string).
End sasl.

Module tls.
Definition VersionTLS13 : Z := 772.
Record Config := { MinVersion : Z }.
End tls.

Module kafka.
Definition LastOffset : Z := -1.
Definition FirstOffset : Z := -2.
Definition MaxInt32 : Z := 2147483647.

Inductive LoggerFunc := noop | printf (prefix : string).

Record Dialer := {
  Timeout : time.Duration;
  SASLMechanism : option sasl.Mechanism;
  TLS : option tls.Config
}.

(** A [*kafka.Dialer] that is not nil: the library's own
    [kafka.DefaultDialer], or a dialer the program allocated. *)
Inductive DialerRef := DefaultDialer | At (p : ptr).

(** The object [kafka.DefaultDialer] points to. *)
Definition default_dialer : Dialer :=
  {| Timeout := 10 * time.Second; SASLMechanism := None; TLS := None |}.

Record Partition := { PartitionTopic : string; PartitionID : Z }.

(** A connection carries the answers the broker will give on it. *)
Record Conn := {
  offsets : (Z * Z) + error;           (* ReadOffsets: first, last *)
  partitions : list Partition + error  (* ReadPartitions *)
}.

Record Message := { Value : string; Offset : Z; Time : time.Time }.

Record ReaderConfig := {
  Brokers : list string;
  GroupID : string;
  Topic : string;
  Partition_ : Z;
  Dialer_ : option DialerRef;
  StartOffset : Z;
  CommitInterval : time.Duration;
  Logger : LoggerFunc;
  ErrorLogger : LoggerFunc
}.

(** [ReaderConfig.Validate], on the fields the client sets (the other
    fields keep their zero values, which pass): the message of the error
    for a configuration that is refused. *)
Definition Validate (cfg : ReaderConfig) : option string :=
  if Nat.eqb (length (Brokers cfg)) 0 then
    Some "cannot create a new kafka reader with an empty list of broker addresses"
  else if Z.ltb (Partition_ cfg) 0 || Z.leb MaxInt32 (Partition_ cfg) then
    Some ("partition number out of bounds: " ++ pretty (Partition_ cfg))
  else if negb (String.eqb (GroupID cfg) "") then
    if negb (Z.eqb (Partition_ cfg) 0) then
      Some "either Partition or GroupID may be specified, but not both"
    else if String.eqb (Topic cfg) "" then
      Some "either Topic or GroupTopics must be specified with GroupID"
    else None
  else if String.eqb (Topic cfg) "" then
    Some "cannot create a new kafka reader with an empty topic"
  else None.

(** The defaults [NewReader] fills in: a nil dialer becomes
    [DefaultDialer], a zero start offset [FirstOffset]. *)
Definition defaults (cfg : ReaderConfig) : ReaderConfig :=
  {| Brokers := Brokers cfg;
     GroupID := GroupID cfg;
     Topic := Topic cfg;
     Partition_ := Partition_ cfg;
     Dialer_ := Some (default DefaultDialer (Dialer_ cfg));
     StartOffset := if Z.eqb (StartOffset cfg) 0 then FirstOffset else StartOffset cfg;
     CommitInterval := CommitInterval cfg;
     Logger := Logger cfg;
     ErrorLogger := ErrorLogger cfg |}.

(** A topic-partition that a broker can lead: the topic has a name and
    the partition number is one a reader accepts. *)
Definition addressable (topic : string) (partition : Z) : bool :=
  negb (String.eqb topic "") && Z.leb 0 partition && Z.ltb partition MaxInt32.

(** Errors of the library. *)
Definition UnknownTopicOrPartition : error :=
  LibError "[3] Unknown Topic Or Partition: the request is for a topic or partition that does not exist on this broker".
Definition errNotAvailableWithGroup : error :=
  LibError "unavailable when GroupID is set".
Definition ErrClosedPipe : error := LibError "io: read/write on closed pipe".

(** A reader object: its configuration, its cursor, whether [Close] has
    run on it, and what [ReadMessage] will return next. *)
Record Reader := {
  config : ReaderConfig;
  offset : Z;
  closed : bool;
  inbox : list (Message + error)
}.

(** Calls made to the library, in the order they happen. *)
Inductive Call :=
| DialLeader (dialer : ptr) (network address topic : string) (partition : Z)
| ReadOffsets
| Dial (dialer : ptr) (network address : string)
| ReadPartitions
| ConnClose
| NewReader (reader : ptr)
| SetOffset (reader : ptr) (off : Z)
| ReadMessage (reader : ptr)
| ReaderClose (reader : ptr).

(** The calls that talk to a broker. *)
Definition round_trip (c : Call) : bool :=
  match c with
  | DialLeader _ _ _ _ _ | ReadOffsets | Dial _ _ _ | ReadPartitions
  | ReadMessage _ => true
  | ConnClose | NewReader _ | SetOffset _ _ | ReaderClose _ => false
  end.

(** The dialer a call goes through, for the calls that dial. *)
Definition through (c : Call) : option ptr :=
  match c with
  | DialLeader d _ _ _ _ | Dial d _ _ => Some d
  | _ => None
  end.
End kafka.

(** What the scram package and the brokers answer: the mechanism built
    for an algorithm, a user name and a password; the connection to the
    leader of a topic-partition, asked for over a network at an address;
    the deliveries of a topic-partition. *)
Record Env := {
  scram_Mechanism :
    sasl.Algorithm -> string -> string -> sasl.Mechanism + error;
  leader : string -> string -> string -> Z -> kafka.Conn + error;
  feed : string -> Z -> list (kafka.Message + error)
}.

(** What [DialLeader] returns: the connection the brokers give, if the
    topic-partition is one a broker can lead.  No broker leads a
    partition of a topic without a name (Kafka has no such topic), nor a
    partition numbered outside [0 .. MaxInt32 - 1] (the partitions of a
    topic are numbered from 0 and counted in an int32); for these the
    lookup of the leader ends with the library's error for an unknown
    topic or partition. *)
Definition dial_leader (env : Env) (network address topic : string) (partition : Z)
  : kafka.Conn + error :=
  match leader env network address topic partition with
  | inl conn =>
      if kafka.addressable topic partition then inl conn
      else inr kafka.UnknownTopicOrPartition
  | inr err => inr err
  end.

(** The store: the dialers and readers allocated so far, addressed by
    position, and the trace of library calls. *)
Record World := {
  dialers : list kafka.Dialer;
  readers : list kafka.Reader;
  trace : list kafka.Call
}.

(** ** Declarations shared by the two source files *)

Definition maxEarliest : Z := 100.
Definition consumerGroupID : string := "kafka-datasource".
Definition network : string := "tcp".
Definition debugLogLevel : string := "debug".
Definition errorLogLevel : string := "error".
Definition dialerTimeout : time.Duration := 10 * time.Second.

Module Options.
Record Options := {
  BootstrapServers : string;
  SecurityProtocol : string;
  SaslMechanisms : string;
  SaslUsername : string;
  SaslPassword : string;
  HealthcheckTimeout : Z;
  LogLevel : string
}.
End Options.

Record KafkaClient := {
  Dialer : option ptr;
  Reader : option ptr;
  BootstrapServers : string;
  TimestampMode : string;
  SecurityProtocol : string;
  SaslMechanisms : string;
  SaslUsername : string;
  SaslPassword : string;
  LogLevel : string;
  HealthcheckTimeout : Z
}.

Record KafkaMessage := {
  Value : option (gmap string float);
  Timestamp : time.Time;
  Offset : Z
}.

Definition NewKafkaClient (options : Options.Options) : KafkaClient :=
  {| Dialer := None;
     Reader := None;
     BootstrapServers := Options.BootstrapServers options;
     TimestampMode := "";
     SecurityProtocol := Options.SecurityProtocol options;
     SaslMechanisms := Options.SaslMechanisms options;
     SaslUsername := Options.SaslUsername options;
     SaslPassword := Options.SaslPassword options;
     LogLevel := Options.LogLevel options;
     HealthcheckTimeout := Options.HealthcheckTimeout options |}.

Definition set_Dialer (d : option ptr) (c : KafkaClient) : KafkaClient :=
  {| Dialer := d;
     Reader := Reader c;
     BootstrapServers := BootstrapServers c;
     TimestampMode := TimestampMode c;
     SecurityProtocol := SecurityProtocol c;
     SaslMechanisms := SaslMechanisms c;
     SaslUsername := SaslUsername c;
     SaslPassword := SaslPassword c;
     LogLevel := LogLevel c;
     HealthcheckTimeout := HealthcheckTimeout c |}.

Definition set_Reader (r : option ptr) (c : KafkaClient) : KafkaClient :=
  {| Dialer := Dialer c;
     Reader := r;
     BootstrapServers := BootstrapServers c;
     TimestampMode := TimestampMode c;
     SecurityProtocol := SecurityProtocol c;
     SaslMechanisms := SaslMechanisms c;
     SaslUsername := SaslUsername c;
     SaslPassword := SaslPassword c;
     LogLevel := LogLevel c;
     HealthcheckTimeout := HealthcheckTimeout c |}.

Definition set_TimestampMode (m : string) (c : KafkaClient) : KafkaClient :=
  {| Dialer := Dialer c;
     Reader := Reader c;
     BootstrapServers := BootstrapServers c;
     TimestampMode := m;
     SecurityProtocol := SecurityProtocol c;
     SaslMechanisms := SaslMechanisms c;
     SaslUsername := SaslUsername c;
     SaslPassword := SaslPassword c;
     LogLevel := LogLevel c;
     HealthcheckTimeout := HealthcheckTimeout c |}.

(** [getSASLMechanism] is the same switch in both files (a method in
    client.go, a function of the client in part_000). *)
Definition getSASLMechanism (env : Env) (client : KafkaClient)
  : option sasl.Mechanism + error :=
  let name := SaslMechanisms client in
  if name =? "PLAIN" then
    inl (Some (sasl.plain_Mechanism (SaslUsername client) (SaslPassword client)))
  else if name =? "SCRAM-SHA-256" then
    match scram_Mechanism env sasl.SHA256 (SaslUsername client) (SaslPassword client) with
    | inl m => inl (Some m)
    | inr err => inr err
    end
  else if name =? "SCRAM-SHA-512" then
    match scram_Mechanism env sasl.SHA512 (SaslUsername client) (SaslPassword client) with
    | inl m => inl (Some m)
    | inr err => inr err
    end
  else if name =? "" then inl None
  else inr (Errorf "unsupported mechanism SASL: %s" [ArgS name]).

(** [getKafkaLogger]: the debug and the error sink for a level. *)
Definition getKafkaLogger (level : string) : kafka.LoggerFunc * kafka.LoggerFunc :=
  let lvl := strings_ToLower level in
  if lvl =? debugLogLevel then
    (kafka.printf "[KAFKA DEBUG] ", kafka.printf "[KAFKA ERROR] ")
  else if lvl =? errorLogLevel then
    (kafka.noop, kafka.printf "[KAFKA ERROR] ")
  else (kafka.noop, kafka.noop).

(** ** Calls as state transformers

    A method mutates the client it is called on and the store, and ends
    by returning, by panicking, or never (it is still waiting for the
    environment). *)

Record Session := { client : KafkaClient; world : World }.

Inductive Res (A : Type) : Type :=
| Done (a : A)
| Panic (reason : string)
| Blocked.
Arguments Done {A} a.
Arguments Panic {A} reason.
Arguments Blocked {A}.

Definition M (A : Type) : Type := Session -> Res A * Session.

#[global] Instance M_ret : MRet M := fun A a s => (Done a, s).

#[global] Instance M_bind : MBind M := fun A B k m s =>
  match m s with
  | (Done a, s') => k a s'
  | (Panic r, s') => (Panic r, s')
  | (Blocked, s') => (Blocked, s')
  end.

Definition panic {A} (reason : string) : M A := fun s => (Panic reason, s).
Definition block {A} : M A := fun s => (Blocked, s).
Definition get_client : M KafkaClient := fun s => (Done (client s), s).
Definition get_world : M World := fun s => (Done (world s), s).
Definition modify_client (f : KafkaClient -> KafkaClient) : M unit :=
  fun s => (Done tt, {| client := f (client s); world := world s |}).
Definition modify_world (f : World -> World) : M unit :=
  fun s => (Done tt, {| client := client s; world := f (world s) |}).

Definition nil_dereference : string := "invalid memory address or nil pointer dereference".

Module lib.
Definition log (c : kafka.Call) : M unit :=
  modify_world (fun w =>
    {| dialers := dialers w; readers := readers w; trace := trace w ++ [c] |}).

(** [&kafka.Dialer{...}]: a new object at a new address. *)
Definition new_Dialer (d : kafka.Dialer) : M ptr :=
  w ← get_world;
  modify_world (fun w =>
    {| dialers := dialers w ++ [d]; readers := readers w; trace := trace w |});;
  mret (length (dialers w)).

Definition put_reader (p : ptr) (r : kafka.Reader) : M unit :=
  modify_world (fun w =>
    {| dialers := dialers w; readers := <[p := r]> (readers w); trace := trace w |}).

(** [kafka.NewReader(cfg)]: panics on a configuration that
    [Validate] refuses; otherwise a new reader object at a new address,
    holding the configuration with its defaults filled in and the cursor
    at [FirstOffset]. *)
Definition NewReader (env : Env) (cfg : kafka.ReaderConfig) : M ptr :=
  match kafka.Validate cfg with
  | Some reason => panic reason
  | None =>
      w ← get_world;
      let p := length (readers w) in
      modify_world (fun w =>
        {| dialers := dialers w;
           readers := readers w ++
             [ {| kafka.config := kafka.defaults cfg;
                  kafka.offset := kafka.FirstOffset;
                  kafka.closed := false;
                  kafka.inbox := feed env (kafka.Topic cfg) (kafka.Partition_ cfg) |} ];
           trace := trace w |});;
      log (kafka.NewReader p);;
      mret p
  end.

(** A method of a library object called through a nil pointer faults. *)
Definition deref {A} (p : option ptr) (k : ptr -> M A) : M A :=
  match p with
  | None => panic nil_dereference
  | Some a => k a
  end.

Definition the_reader (p : ptr) : M kafka.Reader :=
  w ← get_world;
  match readers w !! p with
  | Some r => mret r
  | None => panic nil_dereference
  end.

(** [d.DialLeader(ctx, network, address, topic, partition)] *)
Definition DialLeader (env : Env) (d : option ptr)
    (network address topic : string) (partition : Z) : M (kafka.Conn + error) :=
  deref d (fun a =>
    log (kafka.DialLeader a network address topic partition);;
    mret (dial_leader env network address topic partition)).

(** [d.Dial(network, address)], answered by the broker with [answer]. *)
Definition Dial (d : option ptr) (network address : string)
    (answer : kafka.Conn + error) : M (kafka.Conn + error) :=
  deref d (fun a => log (kafka.Dial a network address);; mret answer).

Definition ReadOffsets (conn : kafka.Conn) : M ((Z * Z) + error) :=
  log kafka.ReadOffsets;; mret (kafka.offsets conn).

Definition ReadPartitions (conn : kafka.Conn) : M (list kafka.Partition + error) :=
  log kafka.ReadPartitions;; mret (kafka.partitions conn).

Definition ConnClose (conn : kafka.Conn) : M unit := log kafka.ConnClose.

(** [r.SetOffset(offset)]: refused on a reader of a consumer group and
    on a closed reader; otherwise the cursor moves. *)
Definition SetOffset (r : option ptr) (off : Z) : M (option error) :=
  deref r (fun p =>
    rd ← the_reader p;
    log (kafka.SetOffset p off);;
    if negb (String.eqb (kafka.GroupID (kafka.config rd)) "") then
      mret (Some kafka.errNotAvailableWithGroup)
    else if kafka.closed rd then mret (Some kafka.ErrClosedPipe)
    else
      put_reader p {| kafka.config := kafka.config rd;
                      kafka.offset := off;
                      kafka.closed := kafka.closed rd;
                      kafka.inbox := kafka.inbox rd |};;
      mret None).

(** [r.ReadMessage(ctx)]: the next delivery, or the error the read
    ends with (a cancelled context among them); with nothing to deliver
    and no error the call keeps waiting. *)
Definition ReadMessage (r : option ptr) : M (kafka.Message + error) :=
  deref r (fun p =>
    rd ← the_reader p;
    match kafka.inbox rd with
    | [] => block
    | m :: rest =>
        log (kafka.ReadMessage p);;
        put_reader p {| kafka.config := kafka.config rd;
                        kafka.offset := kafka.offset rd;
                        kafka.closed := kafka.closed rd;
                        kafka.inbox := rest |};;
        mret m
    end).

(** [r.Close()] *)
Definition ReaderClose (r : option ptr) : M unit :=
  deref r (fun p =>
    rd ← the_reader p;
    log (kafka.ReaderClose p);;
    put_reader p {| kafka.config := kafka.config rd;
                    kafka.offset := kafka.offset rd;
                    kafka.closed := true;
                    kafka.inbox := kafka.inbox rd |}).
End lib.

(** A panic runs the calls a function has deferred before it leaves the
    function. *)
Definition unwind {A} (deferred : M unit) (body : M A) : M A := fun s =>
  match body s with
  | (Panic reason, s') => (Panic reason, (deferred s').2)
  | out => out
  end.

(** ** The health-check loop's view of time

    [HealthCheck] creates a one-shot timer and a ticker and then selects
    on both.  What a [select] receives is decided by the runtime; the loop
    sees it as a sequence of events, each tick together with the broker's
    answer to the dial made on it. *)

Inductive SelectEvent :=
| TimeoutFired
| TickFired (answer : kafka.Conn + error).

(** A scheduler maps the timer's duration and the ticker's period to the
    events the loop will receive. *)
Definition Scheduler := time.Duration -> time.Duration -> list SelectEvent.

(** *** A clock for the scheduler

    Time is counted in nanoseconds from the creation of the timer and the
    ticker.  The ticker's channel buffers one tick; a dial takes some time,
    during which ticks may fire.  When both channels are ready the
    runtime's choice is an input ([tie]). *)
Module clock.
Local Open Scope Z_scope.

Record Clock := {
  now : Z;
  buffered : bool;       (* a tick is waiting in the ticker's channel *)
  next_tick : Z          (* when the ticker fires next *)
}.

Record Attempt := {
  tie : bool;                         (* true: the runtime picks the timer *)
  answer : kafka.Conn + error;        (* the broker's answer to the dial *)
  dial_time : Z                       (* how long the dial takes *)
}.

Inductive Ready := OnlyTimeout | OnlyTick (k : Clock) | Both (k : Clock).

(** The state of the two channels when the loop reaches [select], after
    waiting for the first of them if neither is ready. *)
Definition ready (timeout period : Z) (k : Clock) : Ready :=
  if buffered k then
    let k' := {| now := now k; buffered := false; next_tick := next_tick k |} in
    if timeout <=? now k then Both k' else OnlyTick k'
  else if timeout <=? now k then OnlyTimeout
  else
    let k' := {| now := next_tick k; buffered := false;
                 next_tick := next_tick k + period |} in
    if timeout <? next_tick k then OnlyTimeout
    else if next_tick k <? timeout then OnlyTick k'
    else Both k'.

(** Time passes while the dial runs; a tick that fires meanwhile is
    buffered, further ones are dropped. *)
Definition advance (period d : Z) (k : Clock) : Clock :=
  let t := now k + Z.max 0 d in
  if next_tick k <=? t then
    {| now := t; buffered := true;
       next_tick := next_tick k + period * ((t - next_tick k) / period + 1) |}
  else {| now := t; buffered := buffered k; next_tick := next_tick k |}.

Fixpoint events (timeout period : Z) (script : list Attempt) (k : Clock)
  : list SelectEvent :=
  match ready timeout period k with
  | OnlyTimeout => [TimeoutFired]
  | OnlyTick k' =>
      match script with
      | [] => []
      | a :: rest =>
          TickFired (answer a)
            :: events timeout period rest (advance period (dial_time a) k')
      end
  | Both k' =>
      match script with
      | [] => []
      | a :: rest =>
          if tie a then [TimeoutFired]
          else TickFired (answer a)
                 :: events timeout period rest (advance period (dial_time a) k')
      end
  end.

Definition scheduler (script : list Attempt) : Scheduler :=
  fun timeout period =>
    events timeout period script
      {| now := 0; buffered := false; next_tick := period |}.

(** The clock when the timer and the ticker have just been created. *)
Definition start (period : Z) : Clock :=
  {| now := 0; buffered := false; next_tick := period |}.

(** The instants at which the loop receives the events of [events]. *)
Fixpoint instants (timeout period : Z) (script : list Attempt) (k : Clock)
  : list Z :=
  match ready timeout period k with
  | OnlyTimeout => [Z.max timeout (now k)]
  | OnlyTick k' =>
      match script with
      | [] => []
      | a :: rest =>
          now k' :: instants timeout period rest (advance period (dial_time a) k')
      end
  | Both k' =>
      match script with
      | [] => []
      | a :: rest =>
          if tie a then [now k']
          else now k' :: instants timeout period rest (advance period (dial_time a) k')
      end
  end.
End clock.

(** ** src/pkg/kafka_client/client.go *)

Module GroupClient.

Definition consumerInitialize (env : Env) : M (option error) :=
  client ← get_client;
  match (if negb (SaslMechanisms client =? "")
         then getSASLMechanism env client else inl None) with
  | inr err =>
      mret (Some (Errorf "unable to get sasl mechanism: %w" [ArgW (Some err)]))
  | inl mechanism =>
      dialer ← lib.new_Dialer
        {| kafka.Timeout := 10 * time.Second;
           kafka.SASLMechanism := mechanism;
           kafka.TLS :=
             if SecurityProtocol client =? "SASL_SSL"
             then Some {| tls.MinVersion := 0 |} else None |};
      modify_client (set_Dialer (Some dialer));;
      mret None
  end.

Definition newReader (env : Env) (topic : string) (partition : Z) (offset : Z)
  : M ptr :=
  client ← get_client;
  let '(logger, errorLogger) := getKafkaLogger (LogLevel client) in
  lib.NewReader env
    {| kafka.Brokers := strings_Split (BootstrapServers client) ",";
       kafka.GroupID := consumerGroupID;
       kafka.Topic := topic;
       kafka.Partition_ := partition;
       kafka.Dialer_ := kafka.At <$> Dialer client;
       kafka.StartOffset := offset;
       kafka.CommitInterval := 0;
       kafka.Logger := logger;
       kafka.ErrorLogger := errorLogger |}.

Definition TopicAssign (env : Env) (topic : string) (partition : Z)
    (autoOffsetReset timestampMode : string) : M (option error) :=
  modify_client (set_TimestampMode timestampMode);;
  err ← consumerInitialize env;
  match err with
  | Some err =>
      mret (Some (Errorf "unable to initialize Kafka client: %w" [ArgW (Some err)]))
  | None =>
      let offset :=
        if autoOffsetReset =? "latest" then kafka.LastOffset
        else if autoOffsetReset =? "earliest" then kafka.FirstOffset
        else kafka.LastOffset in
      reader ← newReader env topic partition offset;
      modify_client (set_Reader (Some reader));;
      mret None
  end.

(** The context only matters to [ReadMessage]: a cancelled context is
    one of the errors the read can end with. *)
Definition ConsumerPull (env : Env) : M (KafkaMessage * option error) :=
  let message := {| Value := None; Timestamp := 0; Offset := 0 |} in
  client ← get_client;
  r ← lib.ReadMessage (Reader client);
  match r with
  | inr err =>
      mret (message,
            Some (Errorf "error reading message from Kafka: %v" [ArgV (Some err)]))
  | inl msg =>
      let '(value, uerr) := json.Unmarshal (kafka.Value msg) in
      let message := {| Value := value; Timestamp := 0; Offset := 0 |} in
      match uerr with
      | Some err =>
          mret (message,
                Some (Errorf "error unmarshalling message: %w" [ArgW (Some err)]))
      | None =>
          mret ({| Value := value;
                   Timestamp := kafka.Time msg;
                   Offset := kafka.Offset msg |}, None)
      end
  end.

(** The [for { select { ... } }] loop of [HealthCheck]; [err] is the
    function's variable of that name. *)
Fixpoint probe (events : list SelectEvent) (err : option error)
  : M (option error) :=
  match events with
  | [] => block
  | TimeoutFired :: _ =>
      client ← get_client;
      mret (Some (Errorf "health check timed out after %d ms: %w"
                    [ArgD (HealthcheckTimeout client); ArgW err]))
  | TickFired answer :: rest =>
      client ← get_client;
      r ← lib.Dial (Dialer client) network (BootstrapServers client) answer;
      match r with
      | inl conn =>
          (* defer conn.Close() *)
          ps ← lib.ReadPartitions conn;
          match ps with
          | inr err =>
              lib.ConnClose conn;;
              mret (Some (Errorf "error reading partitions: %w" [ArgW (Some err)]))
          | inl _ => lib.ConnClose conn;; mret None
          end
      | inr err => probe rest (Some err)
      end
  end.

Definition HealthCheck (env : Env) (sched : Scheduler) : M (option error) :=
  err ← consumerInitialize env;
  match err with
  | Some err =>
      mret (Some (Errorf "unable to initialize Kafka client: %w" [ArgW (Some err)]))
  | None =>
      client ← get_client;
      probe (sched (HealthcheckTimeout client * time.Millisecond)
                   (200 * time.Millisecond)) None
  end.

Definition Dispose : M unit :=
  client ← get_client;
  lib.ReaderClose (Reader client).

End GroupClient.

(** ** The metadata client of kafka-go, as [IsTopicExists] uses it *)

Module metadata.
Record Transport := {
  SASL : option sasl.Mechanism;
  TLS : option tls.Config
}.

(** [kafka.Client]: the addresses made by [kafka.TCP], the timeout and the
    transport (nil for the library's default). *)
Record Client := {
  Addr : list string;
  Timeout : time.Duration;
  Transport_ : option Transport
}.

Record Topic := { Name : string }.

Record MetadataResponse := { Topics : list Topic }.

(** What the cluster answers to [Metadata] sent through a given client. *)
Definition Cluster := Client -> MetadataResponse + error.
End metadata.

(** ** src/unnamed/part_000 *)

Module LookbackClient.

Definition NewConnection (env : Env) : M (option error) :=
  client ← get_client;
  match (if negb (SaslMechanisms client =? "")
         then getSASLMechanism env client else inl None) with
  | inr err =>
      mret (Some (Errorf "unable to get sasl mechanism: %w" [ArgW (Some err)]))
  | inl mechanism =>
      dialer ← lib.new_Dialer
        {| kafka.Timeout := dialerTimeout;
           kafka.SASLMechanism := mechanism;
           kafka.TLS :=
             if SecurityProtocol client =? "SASL_SSL"
             then Some {| tls.MinVersion := tls.VersionTLS13 |} else None |};
      modify_client (set_Dialer (Some dialer));;
      mret None
  end.

(** No group and no start offset are configured here: the fields keep
    their zero values. *)
Definition newReader (env : Env) (topic : string) (partition : Z) : M ptr :=
  client ← get_client;
  let '(logger, errorLogger) := getKafkaLogger (LogLevel client) in
  lib.NewReader env
    {| kafka.Brokers := strings_Split (BootstrapServers client) ",";
       kafka.GroupID := "";
       kafka.Topic := topic;
       kafka.Partition_ := partition;
       kafka.Dialer_ := kafka.At <$> Dialer client;
       kafka.StartOffset := 0;
       kafka.CommitInterval := 0;
       kafka.Logger := logger;
       kafka.ErrorLogger := errorLogger |}.

(** The [switch autoOffsetReset] of [TopicAssign]: the offset, or the
    error the function returns with, and the connection whose [Close]
    has been deferred, if any. *)
Definition resolve (env : Env) (topic : string) (partition : Z)
    (autoOffsetReset : string) : M ((Z + error) * option kafka.Conn) :=
  if autoOffsetReset =? "latest" then mret (inl kafka.LastOffset, None)
  else if autoOffsetReset =? "earliest" then
    client ← get_client;
    r ← lib.DialLeader env (Dialer client) network (BootstrapServers client)
          topic partition;
    match r with
    | inr err =>
        mret (inr (Errorf "unable to dial leader: %w" [ArgW (Some err)]), None)
    | inl conn =>
        (* defer conn.Close() *)
        r ← lib.ReadOffsets conn;
        match r with
        | inr err =>
            mret (inr (Errorf "unable to read offsets: %w" [ArgW (Some err)]),
                  Some conn)
        | inl (low, high) =>
            if (sub64 high low >? maxEarliest)%Z
            then mret (inl (sub64 high maxEarliest), Some conn)
            else mret (inl low, Some conn)
        end
    end
  else mret (inl kafka.LastOffset, None).

Definition run_deferred (conn : option kafka.Conn) : M unit :=
  match conn with
  | Some conn => lib.ConnClose conn
  | None => mret tt
  end.

Definition TopicAssign (env : Env) (topic : string) (partition : Z)
    (autoOffsetReset timestampMode : string) : M (option error) :=
  modify_client (set_TimestampMode timestampMode);;
  '(r, deferred) ← resolve env topic partition autoOffsetReset;
  match r with
  | inr err => run_deferred deferred;; mret (Some err)
  | inl offset =>
      err ← unwind (run_deferred deferred)
        (reader ← newReader env topic partition;
         modify_client (set_Reader (Some reader));;
         client ← get_client;
         lib.SetOffset (Reader client) offset);
      run_deferred deferred;;
      match err with
      | Some err =>
          mret (Some (Errorf "unable to set offset: %w" [ArgW (Some err)]))
      | None => mret None
      end
  end.

Definition ConsumerPull (env : Env) : M (KafkaMessage * option error) :=
  let message := {| Value := None; Timestamp := 0; Offset := 0 |} in
  client ← get_client;
  r ← lib.ReadMessage (Reader client);
  match r with
  | inr err =>
      mret (message,
            Some (Errorf "error reading message from Kafka: %w" [ArgW (Some err)]))
  | inl msg =>
      let '(value, uerr) := json.Unmarshal (kafka.Value msg) in
      let message := {| Value := value; Timestamp := 0; Offset := 0 |} in
      match uerr with
      | Some err =>
          mret (message,
                Some (Errorf "error unmarshalling message: %w" [ArgW (Some err)]))
      | None =>
          mret ({| Value := value;
                   Timestamp := kafka.Time msg;
                   Offset := kafka.Offset msg |}, None)
      end
  end.

Fixpoint probe (events : list SelectEvent) (err : option error)
  : M (option error) :=
  match events with
  | [] => block
  | TimeoutFired :: _ =>
      client ← get_client;
      mret (Some (Errorf "health check timed out after %d ms: %w"
                    [ArgD (HealthcheckTimeout client); ArgW err]))
  | TickFired answer :: rest =>
      client ← get_client;
      r ← lib.Dial (Dialer client) network (BootstrapServers client) answer;
      match r with
      | inl conn =>
          (* defer conn.Close() *)
          ps ← lib.ReadPartitions conn;
          match ps with
          | inr err =>
              lib.ConnClose conn;;
              mret (Some (Errorf "error reading partitions: %w" [ArgW (Some err)]))
          | inl _ => lib.ConnClose conn;; mret None
          end
      | inr err => probe rest (Some err)
      end
  end.

Definition HealthCheck (env : Env) (sched : Scheduler) : M (option error) :=
  err ← NewConnection env;
  match err with
  | Some err =>
      mret (Some (Errorf "unable to initialize Kafka client: %w" [ArgW (Some err)]))
  | None =>
      client ← get_client;
      probe (sched (HealthcheckTimeout client * time.Millisecond)
                   (200 * time.Millisecond)) None
  end.

Definition Dispose : M unit :=
  client ← get_client;
  if Reader client is Some _ then lib.ReaderClose (Reader client) else mret tt.

(** The [for ... range meta.Topics] loop of [IsTopicExists], which leaves
    at the first topic of the given name. *)
Fixpoint scan_topics (topics : list metadata.Topic) (topicName : string)
    (topicExists : bool) : bool :=
  match topics with
  | [] => topicExists
  | topic :: rest =>
      if metadata.Name topic =? topicName then true
      else scan_topics rest topicName topicExists
  end.

(** The context only matters to [Metadata], whose answer is the
    cluster's. *)
Definition IsTopicExists (env : Env) (cluster : metadata.Cluster)
    (topicName : string) : M (bool * option error) :=
  client ← get_client;
  let conn := {| metadata.Addr := strings_Split (BootstrapServers client) ",";
                 metadata.Timeout := dialerTimeout;
                 metadata.Transport_ := None |} in
  match (if negb (SaslMechanisms client =? "")
         then getSASLMechanism env client else inl None) with
  | inr err =>
      mret (false, Some (Errorf "unable to get sasl mechanism: %w" [ArgW (Some err)]))
  | inl mechanism =>
      let conn :=
        if mechanism is Some _ then
          {| metadata.Addr := metadata.Addr conn;
             metadata.Timeout := metadata.Timeout conn;
             metadata.Transport_ :=
               Some {| metadata.SASL := mechanism; metadata.TLS := None |} |}
        else conn in
      match cluster conn with
      | inr err =>
          mret (false, Some (Errorf "unable to get metadata: %w" [ArgW (Some err)]))
      | inl meta =>
          let topicExists := scan_topics (metadata.Topics meta) topicName false in
          mret (topicExists, None)
      end
  end.

End LookbackClient.

(** ** Vocabulary of the statements *)

Definition empty_world : World := {| dialers := []; readers := []; trace := [] |}.

(** The calls a run added to the trace. *)
Definition no_round_trip (calls : list kafka.Call) : Prop :=
  forallb (fun c => negb (kafka.round_trip c)) calls = true.

(** The specification's names for the errors the client returns. *)
Definition UnsupportedMechanism (name : string) : error :=
  Errorf "unsupported mechanism SASL: %s" [ArgS name].

(** A credential error as the builder reports it, and as [TopicAssign] and
    [HealthCheck] pass it on. *)
Definition CredentialError (cause : error) : error :=
  Errorf "unable to get sasl mechanism: %w" [ArgW (Some cause)].

Definition InitFailed (cause : error) : error :=
  Errorf "unable to initialize Kafka client: %w" [ArgW (Some cause)].

Inductive OffsetResolutionFailed (cause : error) : error -> Prop :=
| leader_dial_failed :
    OffsetResolutionFailed cause
      (Errorf "unable to dial leader: %w" [ArgW (Some cause)])
| watermark_read_failed :
    OffsetResolutionFailed cause
      (Errorf "unable to read offsets: %w" [ArgW (Some cause)]).

Definition DecodeError (cause : error) : error :=
  Errorf "error unmarshalling message: %w" [ArgW (Some cause)].

Definition HealthCheckTimeout (ms : Z) (last : option error) : error :=
  Errorf "health check timed out after %d ms: %w" [ArgD ms; ArgW last].

Definition PartitionListFailed (cause : error) : error :=
  Errorf "error reading partitions: %w" [ArgW (Some cause)].

(** The dial made on a tick, as it shows in the trace. *)
Definition dial_of (c : KafkaClient) (d : ptr) : kafka.Call :=
  kafka.Dial d network (BootstrapServers c).

(** Ticks whose dial fails with the given errors, in order. *)
Definition failed_ticks (errs : list error) : list SelectEvent :=
  map (fun e => TickFired (inr e)) errs.

(** What a builder leaves behind when it succeeds with [mechanism]. *)
Definition with_new_dialer (d : kafka.Dialer) (s : Session) : Session :=
  {| client := set_Dialer (Some (length (dialers (world s)))) (client s);
     world := {| dialers := dialers (world s) ++ [d];
                 readers := readers (world s);
                 trace := trace (world s) |} |}.

Definition logged (calls : list kafka.Call) (w : World) : World :=
  {| dialers := dialers w; readers := readers w; trace := trace w ++ calls |}.

Definition SetOffsetFailed (cause : error) : error :=
  Errorf "unable to set offset: %w" [ArgW (Some cause)].

(** The reader configurations the two [newReader]s pass to the library,
    and a reader as the library hands it out, with its cursor at [off]. *)
Definition group_config (c : KafkaClient) (topic : string) (partition off : Z)
  : kafka.ReaderConfig :=
  {| kafka.Brokers := strings_Split (BootstrapServers c) ",";
     kafka.GroupID := consumerGroupID;
     kafka.Topic := topic;
     kafka.Partition_ := partition;
     kafka.Dialer_ := kafka.At <$> Dialer c;
     kafka.StartOffset := off;
     kafka.CommitInterval := 0;
     kafka.Logger := (getKafkaLogger (LogLevel c)).1;
     kafka.ErrorLogger := (getKafkaLogger (LogLevel c)).2 |}.

Definition lookback_config (c : KafkaClient) (topic : string) (partition : Z)
  : kafka.ReaderConfig :=
  {| kafka.Brokers := strings_Split (BootstrapServers c) ",";
     kafka.GroupID := "";
     kafka.Topic := topic;
     kafka.Partition_ := partition;
     kafka.Dialer_ := kafka.At <$> Dialer c;
     kafka.StartOffset := 0;
     kafka.CommitInterval := 0;
     kafka.Logger := (getKafkaLogger (LogLevel c)).1;
     kafka.ErrorLogger := (getKafkaLogger (LogLevel c)).2 |}.

Definition opened (env : Env) (cfg : kafka.ReaderConfig) (off : Z) : kafka.Reader :=
  {| kafka.config := kafka.defaults cfg;
     kafka.offset := off;
     kafka.closed := false;
     kafka.inbox := feed env (kafka.Topic cfg) (kafka.Partition_ cfg) |}.

(** The topic-partitions a reader of the consumer group accepts. *)
Definition group_addressable (topic : string) (partition : Z) : bool :=
  negb (String.eqb topic "") && Z.eqb partition 0.

(** The deferred [conn.Close()], run when [TopicAssign] returns. *)
Definition closes (deferred : option kafka.Conn) : list kafka.Call :=
  match deferred with Some _ => [kafka.ConnClose] | None => [] end.

(** The dialers the two builders allocate. *)
Definition group_dialer (c : KafkaClient) (mechanism : option sasl.Mechanism)
  : kafka.Dialer :=
  {| kafka.Timeout := 10 * time.Second;
     kafka.SASLMechanism := mechanism;
     kafka.TLS := if SecurityProtocol c =? "SASL_SSL"
                  then Some {| tls.MinVersion := 0 |} else None |}.

Definition lookback_dialer (c : KafkaClient) (mechanism : option sasl.Mechanism)
  : kafka.Dialer :=
  {| kafka.Timeout := dialerTimeout;
     kafka.SASLMechanism := mechanism;
     kafka.TLS := if SecurityProtocol c =? "SASL_SSL"
                  then Some {| tls.MinVersion := tls.VersionTLS13 |} else None |}.

Definition assignment := Env -> string -> Z -> string -> string -> M (option error).

(** The assignment operation builds its own transport.  Whatever the
    outcome of a call: if the credentials are refused, the call returns
    the builder's credential error and has allocated nothing and called
    nothing; otherwise it has allocated exactly one dialer, carrying the
    mechanism for the session's credentials, the session points at it,
    every reader the call allocated dials through it, no call it made
    went through another dialer, and a call that returns nil has bound
    the session to a reader of its own. *)
Definition builds_fresh_transport (assign : assignment) : Prop :=
  forall env topic partition policy mode s,
    let out := assign env topic partition policy mode s in
    match getSASLMechanism env (client s) with
    | inr err =>
        out.1 = Done (Some (InitFailed (CredentialError err))) /\
        world out.2 = world s
    | inl mechanism =>
        let d := length (dialers (world s)) in
        let p := length (readers (world s)) in
        exists dialer calls,
          Dialer (client out.2) = Some d /\
          dialers (world out.2) = (dialers (world s) ++ [dialer])%list /\
          kafka.SASLMechanism dialer = mechanism /\
          (forall q reader,
             (p <= q)%nat ->
             readers (world out.2) !! q = Some reader ->
             kafka.Dialer_ (kafka.config reader) = Some (kafka.At d)) /\
          trace (world out.2) = (trace (world s) ++ calls)%list /\
          (forall c d', c ∈ calls -> kafka.through c = Some d' -> d' = d) /\
          (out.1 = Done None ->
           Reader (client out.2) = Some p /\ is_Some (readers (world out.2) !! p))
    end.

(** The assignment operation dials through the dialer the session
    already has.  Whatever the outcome of a call: it allocates no dialer
    and leaves the [Dialer] field as it was; every reader it allocates is
    configured with that field (the library's default dialer standing in
    for nil); every call it makes that dials goes through that field's
    dialer; with policy "earliest" and a dialer in the session, the first
    thing it does is dial the leader of the topic-partition through it;
    and a call that returns nil has bound the session to a reader of its
    own. *)
Definition reuses_session_dialer (assign : assignment) : Prop :=
  forall env topic partition policy mode s,
    let out := assign env topic partition policy mode s in
    let p := length (readers (world s)) in
    Dialer (client out.2) = Dialer (client s) /\
    dialers (world out.2) = dialers (world s) /\
    (forall q reader,
       (p <= q)%nat ->
       readers (world out.2) !! q = Some reader ->
       kafka.Dialer_ (kafka.config reader)
       = Some (from_option kafka.At kafka.DefaultDialer (Dialer (client s)))) /\
    (exists calls,
       trace (world out.2) = (trace (world s) ++ calls)%list /\
       (forall c d, c ∈ calls -> kafka.through c = Some d -> Dialer (client s) = Some d) /\
       (forall d,
          policy = "earliest" -> Dialer (client s) = Some d ->
          exists rest,
            calls = kafka.DialLeader d network (BootstrapServers (client s))
                      topic partition :: rest)) /\
    (out.1 = Done None ->
     Reader (client out.2) = Some p /\ is_Some (readers (world out.2) !! p)).

(** The session after reader [p] has handed out the head of its inbox. *)
Definition consumed (p : ptr) (reader : kafka.Reader)
    (rest : list (kafka.Message + error)) (s : Session) : Session :=
  {| client := client s;
     world :=
       {| dialers := dialers (world s);
          readers := <[p := {| kafka.config := kafka.config reader;
                               kafka.offset := kafka.offset reader;
                               kafka.closed := kafka.closed reader;
                               kafka.inbox := rest |}]> (readers (world s));
          trace := trace (world s) ++ [kafka.ReadMessage p] |} |}.

(** The session after [Close] has run on reader [p]. *)
Definition disposed (p : ptr) (reader : kafka.Reader) (s : Session) : Session :=
  {| client := client s;
     world :=
       {| dialers := dialers (world s);
          readers := <[p := {| kafka.config := kafka.config reader;
                               kafka.offset := kafka.offset reader;
                               kafka.closed := true;
                               kafka.inbox := kafka.inbox reader |}]> (readers (world s));
          trace := trace (world s) ++ [kafka.ReaderClose p] |} |}.

(** What a pull returns for a delivered message. *)
Definition pulled (msg : kafka.Message) : KafkaMessage * option error :=
  match json.Unmarshal (kafka.Value msg) with
  | (value, Some cause) =>
      ({| Value := value; Timestamp := 0; Offset := 0 |}, Some (DecodeError cause))
  | (value, None) =>
      ({| Value := value; Timestamp := kafka.Time msg; Offset := kafka.Offset msg |}, None)
  end.




(** The value of [HealthCheck]'s variable [err] after the dials of some
    ticks have failed with [errs], in that order. *)
Definition last_error (err : option error) (errs : list error) : option error :=
  match last errs with
  | Some e => Some e
  | None => err
  end.

(** The dials of [n] ticks, as they show in the trace. *)
Definition dials (c : KafkaClient) (d : ptr) (n : nat) : list kafka.Call :=
  replicate n (dial_of c d).

Definition MetadataFailed (cause : error) : error :=
  Errorf "unable to get metadata: %w" [ArgW (Some cause)].

(** The metadata client [IsTopicExists] builds for a session and the
    mechanism of its credentials. *)
Definition topic_client (c : KafkaClient) (mechanism : option sasl.Mechanism)
  : metadata.Client :=
  {| metadata.Addr := strings_Split (BootstrapServers c) ",";
     metadata.Timeout := dialerTimeout;
     metadata.Transport_ :=
       if mechanism is Some _
       then Some {| metadata.SASL := mechanism; metadata.TLS := None |}
       else None |}.

(** The errors of a failed read, as each file reports them. *)
Definition GroupReadFailed (cause : error) : error :=
  Errorf "error reading message from Kafka: %v" [ArgV (Some cause)].

Definition LookbackReadFailed (cause : error) : error :=
  Errorf "error reading message from Kafka: %w" [ArgW (Some cause)].

Definition zero_message : KafkaMessage :=
  {| Value := None; Timestamp := 0; Offset := 0 |}.

(** [n] pulls in a row, with what each returned. *)
Fixpoint pull_n (pull : M (KafkaMessage * option error)) (n : nat)
  : M (list (KafkaMessage * option error)) :=
  match n with
  | O => mret []
  | S n => r ← pull; rs ← pull_n pull n; mret (r :: rs)
  end.

(** The deliveries of a list of messages. *)
Definition deliveries (msgs : list kafka.Message) : list (kafka.Message + error) :=
  map inl msgs.

(** Whether a byte occurs in a string; a broker address holds no comma. *)
Fixpoint occurs (c : ascii) (s : string) : bool :=
  match s with
  | EmptyString => false
  | String x rest => Ascii.eqb x c || occurs c rest
  end.

Definition comma_free (s : string) : Prop := occurs "," s = false.

(** Attempts whose dial fails with the given errors, each dial taking the
    given time. *)
Definition failing_attempt (tie : bool) (e : error) (t : Z) : clock.Attempt :=
  {| clock.tie := tie; clock.answer := inr e; clock.dial_time := t |}.

Definition quick (period : Z) (a : clock.Attempt) : Prop :=
  0 <= clock.dial_time a < period.

(** The library calls a health check may make. *)
Definition probe_call (c : kafka.Call) : bool :=
  match c with
  | kafka.Dial _ _ _ | kafka.ReadPartitions | kafka.ConnClose => true
  | _ => false
  end.

(** The ticks the loop receives for a list of attempts. *)
Definition ticks_of (script : list clock.Attempt) : list SelectEvent :=
  map (fun a => TickFired (clock.answer a)) script.

(** Calls other than the closing of a reader. *)
Definition not_reader_close (c : kafka.Call) : bool :=
  match c with
  | kafka.ReaderClose _ => false
  | _ => true
  end.

(** Under the clock, the deadline has passed before any tick succeeds:
    every tick of the script whose dial succeeds is received at or after
    the deadline. *)
Definition succeeds_only_after (timeout period : Z) (script : list clock.Attempt)
  : Prop :=
  forall i a conn t,
    script !! i = Some a ->
    clock.answer a = inl conn ->
    clock.instants timeout period script (clock.start period) !! i = Some t ->
    timeout <= t.

(** One reading of the specification's "if the configured deadline
    elapses before success, the check fails with HealthCheckTimeout":
    under the clock and with the credentials accepted, whenever the
    deadline has passed before any tick succeeds, the check returns the
    timeout error. *)
Definition deadline_is_final (check : Env -> Scheduler -> M (option error)) : Prop :=
  forall env s mechanism script,
    getSASLMechanism env (client s) = inl mechanism ->
    succeeds_only_after (HealthcheckTimeout (client s) * time.Millisecond)
      (200 * time.Millisecond) script ->
    exists last s',
      check env (clock.scheduler script) s
      = (Done (Some (HealthCheckTimeout (HealthcheckTimeout (client s)) last)), s').

(** Whether a string holds an ASCII control character. *)
Fixpoint has_control (s : string) : bool :=
  match s with
  | EmptyString => false
  | String c rest =>
      Nat.ltb (nat_of_ascii c) 32 || Nat.eqb (nat_of_ascii c) 127 || has_control rest
  end.

(** ** Sample data *)

Module sample.
Definition dq : string := String (ascii_of_nat 34) EmptyString.

(** The bodies {"a": 1.5, "b": 2}, {"a":"x"} and {"a": null}. *)
Definition numeric_body : string :=
  "{" ++ dq ++ "a" ++ dq ++ ": 1.5, " ++ dq ++ "b" ++ dq ++ ": 2}".
Definition text_body : string :=
  "{" ++ dq ++ "a" ++ dq ++ ":" ++ dq ++ "x" ++ dq ++ "}".

Definition numeric_value : gmap string float :=
  <["a" := 1.5%float]> (<["b" := 2%float]> ∅).

(** What the decoder leaves in the map for {"a":"x"} and for
    {"a": null}. *)
Definition zero_value : gmap string float := <["a" := 0%float]> ∅.

Definition watermarks (low high : Z) : kafka.Conn :=
  {| kafka.offsets := inl (low, high); kafka.partitions := inl [] |}.

Definition no_listing : kafka.Conn :=
  {| kafka.offsets := inr (LibError "EOF");
     kafka.partitions := inr (LibError "broken pipe") |}.

(** Brokers that hold offsets 5..500 of every partition, and a scram
    package that accepts what it is given. *)
Definition env : Env :=
  {| scram_Mechanism := fun algo user pass => inl (sasl.scram_mechanism algo user pass);
     leader := fun _ _ _ _ => inl (watermarks 5 500);
     feed := fun _ _ =>
       [ inl {| kafka.Value := text_body; kafka.Offset := 7; kafka.Time := 1700 |};
         inl {| kafka.Value := numeric_body; kafka.Offset := 8; kafka.Time := 1800 |} ] |}.

(** Brokers whose leader cannot be reached. *)
Definition unreachable : Env :=
  {| scram_Mechanism := scram_Mechanism env;
     leader := fun _ _ _ _ => inr (LibError "connection refused");
     feed := feed env |}.

Definition options (mechanism : string) (timeout : Z) : Options.Options :=
  {| Options.BootstrapServers := "broker-1:9092,broker-2:9092";
     Options.SecurityProtocol := "SASL_SSL";
     Options.SaslMechanisms := mechanism;
     Options.SaslUsername := "grafana";
     Options.SaslPassword := "secret";
     Options.HealthcheckTimeout := timeout;
     Options.LogLevel := "Error" |}.

Definition fresh (mechanism : string) : KafkaClient :=
  NewKafkaClient (options mechanism 1000).

(** A session whose dial capability was built earlier. *)
Definition plain_dialer : kafka.Dialer :=
  {| kafka.Timeout := dialerTimeout;
     kafka.SASLMechanism := Some (sasl.plain_Mechanism "grafana" "secret");
     kafka.TLS := Some {| tls.MinVersion := tls.VersionTLS13 |} |}.

Definition connected : Session :=
  {| client := set_Dialer (Some 0%nat) (fresh "PLAIN");
     world := {| dialers := [plain_dialer]; readers := []; trace := [] |} |}.

(** The same session once a reader has been bound at offset 7. *)
Definition bound_reader : kafka.Reader :=
  opened env (lookback_config (client connected) "metrics" 3) 7.

Definition bound : Session :=
  {| client := set_Reader (Some 0%nat) (client connected);
     world := {| dialers := [plain_dialer]; readers := [bound_reader]; trace := [] |} |}.

(** A scram package that refuses. *)
Definition strict : Env :=
  {| scram_Mechanism := fun _ _ _ => inr (LibError "prohibited character");
     leader := leader env;
     feed := feed env |}.

(** A scram package that prepares the user name and the password as
    SASLprep does, which prohibits control characters; and a client
    whose password holds a tab. *)
Definition preparing : Env :=
  {| scram_Mechanism := fun algo user pass =>
       if has_control user || has_control pass
       then inr (LibError "prohibited character")
       else inl (sasl.scram_mechanism algo user pass);
     leader := leader env;
     feed := feed env |}.

Definition tabbed (mechanism : string) : KafkaClient :=
  NewKafkaClient
    {| Options.BootstrapServers := "broker-1:9092";
       Options.SecurityProtocol := "SASL_SSL";
       Options.SaslMechanisms := mechanism;
       Options.SaslUsername := "grafana";
       Options.SaslPassword := String (ascii_of_nat 9) "secret";
       Options.HealthcheckTimeout := 1000;
       Options.LogLevel := "error" |}.

Definition two_topics : metadata.Cluster :=
  fun _ => inl {| metadata.Topics := [ {| metadata.Name := "t1" |};
                                       {| metadata.Name := "t2" |} ] |}.

Definition cluster_down : metadata.Cluster :=
  fun _ => inr (LibError "no brokers available").

Definition healthy : kafka.Conn :=
  {| kafka.offsets := inl (5, 500);
     kafka.partitions := inl [ {| kafka.PartitionTopic := "metrics";
                                  kafka.PartitionID := 0 |} ] |}.

(** A dial that takes ten seconds and fails, then one that succeeds. *)
Definition stalled : list clock.Attempt :=
  [ {| clock.tie := false;
       clock.answer := inr (LibError "i/o timeout");
       clock.dial_time := 10 * time.Second |};
    {| clock.tie := false;
       clock.answer := inl healthy;
       clock.dial_time := 5 * time.Millisecond |} ].



End sample.

(** * Properties *)

(** ** Evaluating the monad *)

Arguments dial_leader : simpl never.

Ltac unmonad :=
  unfold lib.DialLeader, lib.Dial, lib.ReadOffsets, lib.ReadPartitions, lib.ConnClose,
    lib.SetOffset, lib.ReadMessage, lib.ReaderClose, lib.new_Dialer,
    lib.the_reader, lib.put_reader, lib.deref, lib.log,
    get_client, get_world, modify_client, modify_world, panic, block,
    mbind, M_bind, mret, M_ret in *.

Lemma sub64_exact a b :
  int64_min <= a - b <= int64_max -> sub64 a b = a - b.
Proof.
  unfold sub64, wrap64, int64_min, int64_max. intros H.
  rewrite Z.mod_small; lia.
Qed.

Lemma lookup_fresh {A} (l : list A) (x : A) : (l ++ [x])%list !! length l = Some x.
Proof. by apply list_lookup_middle. Qed.

Lemma insert_fresh {A} (l : list A) (x y : A) :
  <[length l := y]> (l ++ [x])%list = (l ++ [y])%list.
Proof. rewrite insert_app_r_alt; [| lia]. by rewrite Nat.sub_diag. Qed.

(** [errors.Unwrap] gives back what the client's errors wrap. *)
Lemma client_errors_unwrap cause ms last :
  Unwrap (CredentialError cause) = Some cause /\
  Unwrap (InitFailed cause) = Some cause /\
  Unwrap (DecodeError cause) = Some cause /\
  Unwrap (PartitionListFailed cause) = Some cause /\
  Unwrap (SetOffsetFailed cause) = Some cause /\
  Unwrap (HealthCheckTimeout ms last) = last /\
  Unwrap (UnsupportedMechanism "x") = None.
Proof. repeat split. Qed.

(** ** The library's checks *)

Lemma split_on_nonempty sep acc s : split_on sep acc s <> [].
Proof.
  revert acc. induction s as [| c s IH]; intros acc; cbn; [done |].
  destruct (Ascii.eqb c sep); [done | apply IH].
Qed.

Lemma brokers_nonempty s sep : Nat.eqb (length (strings_Split s sep)) 0 = false.
Proof.
  unfold strings_Split. pose proof (split_on_nonempty sep EmptyString s).
  by destruct (split_on sep EmptyString s).
Qed.

(** A reader without a group is accepted exactly for the topic-partitions
    a broker can lead. *)
Lemma Validate_lookback c topic partition :
  kafka.Validate (lookback_config c topic partition) =
  if kafka.addressable topic partition then None
  else Some (if Z.ltb partition 0 || Z.leb kafka.MaxInt32 partition
             then "partition number out of bounds: " ++ pretty partition
             else "cannot create a new kafka reader with an empty topic").
Proof.
  unfold kafka.Validate, kafka.addressable, lookback_config.
  cbn [kafka.Brokers kafka.Partition_ kafka.GroupID kafka.Topic].
  rewrite brokers_nonempty. cbn [String.eqb negb].
  destruct (Z.ltb_spec partition 0), (Z.leb_spec kafka.MaxInt32 partition),
    (Z.leb_spec 0 partition), (Z.ltb_spec partition kafka.MaxInt32);
    try lia; cbn; rewrite ?andb_false_r; try reflexivity.
  by destruct (String.eqb topic "").
Qed.

(** A reader of the consumer group is accepted exactly for partition 0
    of a named topic. *)
Lemma Validate_group c topic partition off :
  kafka.Validate (group_config c topic partition off) =
  if group_addressable topic partition then None
  else Some (if Z.ltb partition 0 || Z.leb kafka.MaxInt32 partition
             then "partition number out of bounds: " ++ pretty partition
             else if negb (Z.eqb partition 0)
             then "either Partition or GroupID may be specified, but not both"
             else "either Topic or GroupTopics must be specified with GroupID").
Proof.
  unfold kafka.Validate, group_addressable, group_config.
  cbn [kafka.Brokers kafka.Partition_ kafka.GroupID kafka.Topic].
  rewrite brokers_nonempty. cbn [consumerGroupID String.eqb Ascii.eqb Bool.eqb negb].
  destruct (Z.eqb_spec partition 0) as [-> | Hne].
  - cbn. by destruct (String.eqb topic "").
  - cbn [negb]. rewrite andb_false_r.
    by destruct (Z.ltb partition 0 || Z.leb kafka.MaxInt32 partition).
Qed.

(** The leader of a topic-partition is reached only if a broker can lead
    it. *)
Lemma dial_leader_addressable env network address topic partition conn :
  dial_leader env network address topic partition = inl conn ->
  kafka.addressable topic partition = true.
Proof.
  unfold dial_leader.
  destruct (leader env network address topic partition); [| done].
  by destruct (kafka.addressable topic partition).
Qed.

Lemma NewReader_run env cfg s :
  lib.NewReader env cfg s =
  match kafka.Validate cfg with
  | Some reason => (Panic reason, s)
  | None =>
      (Done (length (readers (world s))),
       {| client := client s;
          world :=
            {| dialers := dialers (world s);
               readers := readers (world s) ++ [opened env cfg kafka.FirstOffset];
               trace := trace (world s) ++ [kafka.NewReader (length (readers (world s)))] |} |})
  end.
Proof. unfold lib.NewReader. by destruct (kafka.Validate cfg). Qed.

Lemma newReader_run env topic partition off s :
  GroupClient.newReader env topic partition off s
    = lib.NewReader env (group_config (client s) topic partition off) s /\
  LookbackClient.newReader env topic partition s
    = lib.NewReader env (lookback_config (client s) topic partition) s.
Proof.
  unfold GroupClient.newReader, LookbackClient.newReader, group_config, lookback_config.
  unfold mbind, M_bind, get_client.
  by destruct (getKafkaLogger (LogLevel (client s))) as [lg elg].
Qed.

(** ** The credential and transport builders *)

Lemma getSASLMechanism_unguarded env c :
  (if negb (SaslMechanisms c =? "") then getSASLMechanism env c else inl None)
  = getSASLMechanism env c.
Proof.
  destruct (String.eqb_spec (SaslMechanisms c) "") as [E | E]; simpl; [| reflexivity].
  unfold getSASLMechanism. rewrite E. reflexivity.
Qed.

Lemma consumerInitialize_run env s :
  GroupClient.consumerInitialize env s =
  match getSASLMechanism env (client s) with
  | inr err => (Done (Some (CredentialError err)), s)
  | inl mechanism => (Done None, with_new_dialer (group_dialer (client s) mechanism) s)
  end.
Proof.
  unfold GroupClient.consumerInitialize. unmonad. cbn.
  rewrite getSASLMechanism_unguarded.
  destruct (getSASLMechanism env (client s)); reflexivity.
Qed.

Lemma NewConnection_run env s :
  LookbackClient.NewConnection env s =
  match getSASLMechanism env (client s) with
  | inr err => (Done (Some (CredentialError err)), s)
  | inl mechanism => (Done None, with_new_dialer (lookback_dialer (client s) mechanism) s)
  end.
Proof.
  unfold LookbackClient.NewConnection. unmonad. cbn.
  rewrite getSASLMechanism_unguarded.
  destruct (getSASLMechanism env (client s)); reflexivity.
Qed.

Lemma getSASLMechanism_unsupported env c :
  SaslMechanisms c ∉ [""; "PLAIN"; "SCRAM-SHA-256"; "SCRAM-SHA-512"] ->
  getSASLMechanism env c = inr (UnsupportedMechanism (SaslMechanisms c)).
Proof.
  rewrite !not_elem_of_cons. intros (H0 & H1 & H2 & H3 & _).
  unfold getSASLMechanism.
  apply String.eqb_neq in H0, H1, H2, H3. by rewrite H0, H1, H2, H3.
Qed.

(** C3, as stated, fails: for the name "SCRAM-SHA-256" and a password
    that the scram package refuses (SASLprep prohibits the tab in it),
    [getSASLMechanism] returns the package's error and no mechanism. *)
Lemma scram_refusal_gives_no_mechanism :
  ~ (forall env c,
       SaslMechanisms c ∈ ["PLAIN"; "SCRAM-SHA-256"; "SCRAM-SHA-512"] ->
       exists m, getSASLMechanism env c = inl (Some m)).
Proof.
  intros H.
  destruct (H sample.preparing (sample.tabbed "SCRAM-SHA-256")) as [m Hm].
  - cbn. set_solver.
  - vm_compute in Hm. discriminate.
Qed.

(** C3, amended. For every SASL mechanism name, [getSASLMechanism]
    answers no mechanism for the empty name, the plain mechanism for
    "PLAIN", and an unsupported-mechanism error for every name other than
    the four; for "SCRAM-SHA-256" and "SCRAM-SHA-512" it answers what the
    scram package answers for the algorithm and the credentials: the
    mechanism it builds, or its error when it refuses them.  On the
    unsupported-mechanism error both builders fail with a credential
    error that wraps it and leave the session as it was. *)
Theorem sasl_mechanism_by_name (env : Env) (s : Session) :
  let user := SaslUsername (client s) in
  let pass := SaslPassword (client s) in
  (SaslMechanisms (client s) = "" -> getSASLMechanism env (client s) = inl None) /\
  (SaslMechanisms (client s) = "PLAIN" ->
   getSASLMechanism env (client s) = inl (Some (sasl.plain_Mechanism user pass))) /\
  (SaslMechanisms (client s) = "SCRAM-SHA-256" ->
   getSASLMechanism env (client s) =
   match scram_Mechanism env sasl.SHA256 user pass with
   | inl m => inl (Some m)
   | inr err => inr err
   end) /\
  (SaslMechanisms (client s) = "SCRAM-SHA-512" ->
   getSASLMechanism env (client s) =
   match scram_Mechanism env sasl.SHA512 user pass with
   | inl m => inl (Some m)
   | inr err => inr err
   end) /\
  (SaslMechanisms (client s) ∉ [""; "PLAIN"; "SCRAM-SHA-256"; "SCRAM-SHA-512"] ->
   let err := UnsupportedMechanism (SaslMechanisms (client s)) in
   getSASLMechanism env (client s) = inr err /\
   GroupClient.consumerInitialize env s = (Done (Some (CredentialError err)), s) /\
   LookbackClient.NewConnection env s = (Done (Some (CredentialError err)), s)).
Proof.
  cbn zeta. repeat split.
  - intros E. unfold getSASLMechanism. by rewrite E.
  - intros E. unfold getSASLMechanism. by rewrite E.
  - intros E. unfold getSASLMechanism. by rewrite E.
  - intros E. unfold getSASLMechanism. by rewrite E.
  - by apply getSASLMechanism_unsupported.
  - rewrite consumerInitialize_run, getSASLMechanism_unsupported; done.
  - rewrite NewConnection_run, getSASLMechanism_unsupported; done.
Qed.

Lemma sasl_mechanism_by_name_witness :
  getSASLMechanism sample.env (sample.fresh "") = inl None /\
  getSASLMechanism sample.env (sample.fresh "PLAIN")
    = inl (Some (sasl.plain_Mechanism "grafana" "secret")) /\
  getSASLMechanism sample.env (sample.fresh "SCRAM-SHA-256")
    = inl (Some (sasl.scram_mechanism sasl.SHA256 "grafana" "secret")) /\
  getSASLMechanism sample.preparing (sample.tabbed "SCRAM-SHA-512")
    = inr (LibError "prohibited character") /\
  getSASLMechanism sample.env (sample.fresh "GSSAPI")
    = inr (UnsupportedMechanism "GSSAPI").
Proof.
  pose (at_name := fun name =>
    sasl_mechanism_by_name sample.env
      {| client := sample.fresh name; world := empty_world |}).
  split; [exact (proj1 (at_name "") eq_refl) |].
  split; [exact (proj1 (proj2 (at_name "PLAIN")) eq_refl) |].
  split; [exact (proj1 (proj2 (proj2 (at_name "SCRAM-SHA-256"))) eq_refl) |].
  split.
  - exact (proj1 (proj2 (proj2 (proj2
             (sasl_mechanism_by_name sample.preparing
                {| client := sample.tabbed "SCRAM-SHA-512"; world := empty_world |}))))
             eq_refl).
  - refine (proj1 (proj2 (proj2 (proj2 (proj2 (at_name "GSSAPI")))) _)).
    rewrite !not_elem_of_cons. repeat split; try discriminate. apply not_elem_of_nil.
Defined.

(** ** Topic-partition assignment *)

Lemma group_assign_run env topic partition policy mode s :
  GroupClient.TopicAssign env topic partition policy mode s =
  let c1 := set_TimestampMode mode (client s) in
  match getSASLMechanism env (client s) with
  | inr err =>
      (Done (Some (InitFailed (CredentialError err))),
       {| client := c1; world := world s |})
  | inl mechanism =>
      let d := length (dialers (world s)) in
      let p := length (readers (world s)) in
      let off := if policy =? "latest" then kafka.LastOffset
                 else if policy =? "earliest" then kafka.FirstOffset
                 else kafka.LastOffset in
      let built := with_new_dialer (group_dialer (client s) mechanism)
                     {| client := c1; world := world s |} in
      match kafka.Validate (group_config (client built) topic partition off) with
      | Some reason => (Panic reason, built)
      | None =>
          (Done None,
           {| client := set_Reader (Some p) (client built);
              world :=
                {| dialers := dialers (world s) ++ [group_dialer (client s) mechanism];
                   readers := readers (world s) ++
                     [opened env (group_config (client built) topic partition off)
                        kafka.FirstOffset];
                   trace := trace (world s) ++ [kafka.NewReader p] |} |})
      end
  end.
Proof.
  unfold GroupClient.TopicAssign.
  unfold mbind at 1, M_bind at 1, modify_client at 1. cbn beta iota.
  unfold mbind at 1, M_bind at 1. rewrite consumerInitialize_run. cbn [client world].
  change (getSASLMechanism env (set_TimestampMode mode (client s)))
    with (getSASLMechanism env (client s)).
  destruct (getSASLMechanism env (client s)) as [mechanism | err]; [| reflexivity].
  cbn zeta. unfold mbind at 1, M_bind at 1.
  rewrite (proj1 (newReader_run _ _ _ _ _)), NewReader_run.
  change (group_dialer (set_TimestampMode mode (client s)) mechanism)
    with (group_dialer (client s) mechanism).
  by destruct (kafka.Validate _).
Qed.

Lemma resolve_other env topic partition policy s :
  policy <> "earliest" ->
  LookbackClient.resolve env topic partition policy s
  = (Done (inl kafka.LastOffset, None), s).
Proof.
  intros H. apply String.eqb_neq in H. unfold LookbackClient.resolve.
  rewrite H. by destruct (policy =? "latest").
Qed.

Lemma resolve_earliest env topic partition s d conn low high :
  Dialer (client s) = Some d ->
  dial_leader env network (BootstrapServers (client s)) topic partition = inl conn ->
  kafka.offsets conn = inl (low, high) ->
  LookbackClient.resolve env topic partition "earliest" s =
  (Done (inl (if (sub64 high low >? maxEarliest)%Z
              then sub64 high maxEarliest else low), Some conn),
   {| client := client s;
      world := logged [kafka.DialLeader d network (BootstrapServers (client s))
                         topic partition; kafka.ReadOffsets] (world s) |}).
Proof.
  intros Hd Hl Ho. unfold LookbackClient.resolve. cbn [String.eqb Ascii.eqb Bool.eqb].
  unmonad. cbn. rewrite Hd. cbn. rewrite Hl, Ho.
  unfold logged. cbn. rewrite <- app_assoc. cbn.
  destruct (sub64 high low >? maxEarliest)%Z; reflexivity.
Qed.

Lemma resolve_dial_failed env topic partition s d cause :
  Dialer (client s) = Some d ->
  dial_leader env network (BootstrapServers (client s)) topic partition = inr cause ->
  LookbackClient.resolve env topic partition "earliest" s =
  (Done (inr (Errorf "unable to dial leader: %w" [ArgW (Some cause)]), None),
   {| client := client s;
      world := logged [kafka.DialLeader d network (BootstrapServers (client s))
                         topic partition] (world s) |}).
Proof.
  intros Hd Hl. unfold LookbackClient.resolve. cbn [String.eqb Ascii.eqb Bool.eqb].
  unmonad. cbn. rewrite Hd. cbn. by rewrite Hl.
Qed.

Lemma resolve_read_failed env topic partition s d conn cause :
  Dialer (client s) = Some d ->
  dial_leader env network (BootstrapServers (client s)) topic partition = inl conn ->
  kafka.offsets conn = inr cause ->
  LookbackClient.resolve env topic partition "earliest" s =
  (Done (inr (Errorf "unable to read offsets: %w" [ArgW (Some cause)]), Some conn),
   {| client := client s;
      world := logged [kafka.DialLeader d network (BootstrapServers (client s))
                         topic partition; kafka.ReadOffsets] (world s) |}).
Proof.
  intros Hd Hl Ho. unfold LookbackClient.resolve. cbn [String.eqb Ascii.eqb Bool.eqb].
  unmonad. cbn. rewrite Hd. cbn. rewrite Hl, Ho.
  unfold logged. cbn. by rewrite <- app_assoc.
Qed.

Lemma resolve_nil_dialer env topic partition s :
  Dialer (client s) = None ->
  LookbackClient.resolve env topic partition "earliest" s = (Panic nil_dereference, s).
Proof.
  intros Hd. unfold LookbackClient.resolve. cbn [String.eqb Ascii.eqb Bool.eqb].
  unmonad. cbn. by rewrite Hd.
Qed.

(** The switch of [TopicAssign] changes neither the client nor the
    objects in the store. *)
Lemma resolve_frame env topic partition policy s :
  let out := LookbackClient.resolve env topic partition policy s in
  client out.2 = client s /\
  dialers (world out.2) = dialers (world s) /\
  readers (world out.2) = readers (world s).
Proof.
  destruct (String.eqb_spec policy "earliest") as [-> | Hp].
  - destruct (Dialer (client s)) as [d |] eqn:Hd.
    + destruct (dial_leader env network (BootstrapServers (client s)) topic partition)
        as [conn | cause] eqn:Hl.
      * destruct (kafka.offsets conn) as [[low high] | cause] eqn:Ho.
        -- by erewrite resolve_earliest.
        -- by erewrite resolve_read_failed.
      * by erewrite resolve_dial_failed.
    + by rewrite resolve_nil_dialer.
  - by rewrite resolve_other.
Qed.

Lemma run_deferred_run deferred s :
  LookbackClient.run_deferred deferred s
  = (Done tt, {| client := client s; world := logged (closes deferred) (world s) |}).
Proof.
  destruct deferred; [reflexivity |].
  unfold LookbackClient.run_deferred, logged. cbn. rewrite app_nil_r.
  by destruct s as [c [ds rs tr]].
Qed.

Lemma lookback_assign_run env topic partition policy mode s :
  LookbackClient.TopicAssign env topic partition policy mode s =
  match LookbackClient.resolve env topic partition policy
          {| client := set_TimestampMode mode (client s); world := world s |} with
  | (Done (inr err, deferred), s2) =>
      (Done (Some err),
       {| client := client s2; world := logged (closes deferred) (world s2) |})
  | (Done (inl off, deferred), s2) =>
      let p := length (readers (world s2)) in
      match kafka.Validate (lookback_config (client s2) topic partition) with
      | Some reason =>
          (Panic reason,
           {| client := client s2; world := logged (closes deferred) (world s2) |})
      | None =>
          (Done None,
           {| client := set_Reader (Some p) (client s2);
              world :=
                {| dialers := dialers (world s2);
                   readers := readers (world s2) ++
                     [opened env (lookback_config (client s2) topic partition) off];
                   trace := trace (world s2) ++
                     [kafka.NewReader p; kafka.SetOffset p off] ++ closes deferred |} |})
      end
  | (Panic r, s2) => (Panic r, s2)
  | (Blocked, s2) => (Blocked, s2)
  end.
Proof.
  unfold LookbackClient.TopicAssign.
  unfold mbind at 1, M_bind at 1, modify_client at 1. cbn beta iota.
  unfold mbind at 1, M_bind at 1. cbn [client world].
  destruct (LookbackClient.resolve _ _ _ _ _) as [[[[off | err] deferred] | r |] s2];
    try reflexivity.
  - unfold mbind at 1, M_bind at 1, unwind.
    unfold mbind at 1, M_bind at 1.
    rewrite (proj2 (newReader_run env topic partition 0 s2)), NewReader_run.
    destruct (kafka.Validate _) as [reason |].
    + by rewrite run_deferred_run.
    + unmonad. cbn. rewrite lookup_fresh. cbn.
      rewrite run_deferred_run. cbn.
      unfold logged. cbn. by rewrite insert_fresh, <- !app_assoc.
  - unfold mbind, M_bind. by rewrite run_deferred_run.
Qed.

(** C1. Under the bounded-lookback strategy (part_000), when the session
    has a dialer, the leader is reached and it reports the watermarks
    [low] and [high] (offsets: non-negative 64-bit integers), assignment
    with policy "earliest" opens a reader and sets its offset to [low] if
    [high - low <= 100] and to [high - 100] if [high - low > 100]. *)
Theorem earliest_starts_within_window
    (env : Env) (topic : string) (partition : Z) (mode : string) (s : Session)
    (d : ptr) (conn : kafka.Conn) (low high : Z) :
  Dialer (client s) = Some d ->
  dial_leader env network (BootstrapServers (client s)) topic partition = inl conn ->
  kafka.offsets conn = inl (low, high) ->
  0 <= low <= int64_max ->
  0 <= high <= int64_max ->
  exists start s',
    LookbackClient.TopicAssign env topic partition "earliest" mode s = (Done None, s') /\
    (high - low <= 100 -> start = low) /\
    (high - low > 100 -> start = high - 100) /\
    let p := length (readers (world s)) in
    Reader (client s') = Some p /\
    trace (world s') =
      (trace (world s) ++
       [kafka.DialLeader d network (BootstrapServers (client s)) topic partition;
        kafka.ReadOffsets; kafka.NewReader p; kafka.SetOffset p start;
        kafka.ConnClose])%list /\
    kafka.offset <$> readers (world s') !! p = Some start.
Proof.
  intros Hd Hl Ho Hlow Hhigh.
  exists (if (sub64 high low >? maxEarliest)%Z then sub64 high maxEarliest else low).
  eexists. split.
  - rewrite lookback_assign_run.
    erewrite resolve_earliest by (cbn; eassumption). cbn zeta.
    rewrite Validate_lookback, (dial_leader_addressable _ _ _ _ _ _ Hl). reflexivity.
  - unfold int64_max in *.
    rewrite !sub64_exact by (unfold int64_min, int64_max, maxEarliest; lia).
    unfold maxEarliest. cbn [client world logged readers trace Reader set_Reader].
    split; [| split; [| split; [| split]]].
    + intros H. destruct (Z.gtb_spec (high - low) 100); [lia | done].
    + intros H. destruct (Z.gtb_spec (high - low) 100); [done | lia].
    + reflexivity.
    + rewrite <- app_assoc. reflexivity.
    + by rewrite lookup_fresh.
Qed.

Lemma earliest_starts_within_window_witness :
  exists s',
    LookbackClient.TopicAssign sample.env "metrics" 3 "earliest" "now" sample.connected
      = (Done None, s') /\
    kafka.offset <$> readers (world s') !! 0%nat = Some 400.
Proof.
  destruct (earliest_starts_within_window sample.env "metrics" 3 "now" sample.connected
              0%nat (sample.watermarks 5 500) 5 500)
    as (start & s' & Hrun & _ & Hstart & _ & _ & Hoff);
    [reflexivity | reflexivity | reflexivity
    | unfold int64_max; lia | unfold int64_max; lia |].
  rewrite (Hstart ltac:(lia)) in *.
  exists s'. split; [exact Hrun | exact Hoff].
Defined.

(** C5. Under the bounded-lookback strategy (part_000), when the session
    has a dialer and either the leader cannot be dialled or the watermark
    read fails, assignment with policy "earliest" returns an error that
    wraps the cause, allocates no reader and leaves the session's [Reader]
    field as it was. *)
Theorem earliest_failure_opens_no_reader
    (env : Env) (topic : string) (partition : Z) (mode : string) (s : Session)
    (d : ptr) (cause : error) :
  Dialer (client s) = Some d ->
  (dial_leader env network (BootstrapServers (client s)) topic partition = inr cause \/
   exists conn,
     dial_leader env network (BootstrapServers (client s)) topic partition = inl conn /\
     kafka.offsets conn = inr cause) ->
  exists err s',
    LookbackClient.TopicAssign env topic partition "earliest" mode s
      = (Done (Some err), s') /\
    OffsetResolutionFailed cause err /\
    Reader (client s') = Reader (client s) /\
    readers (world s') = readers (world s) /\
    forall p, kafka.NewReader p ∈ trace (world s') -> kafka.NewReader p ∈ trace (world s).
Proof.
  intros Hd [Hl | (conn & Hl & Ho)].
  - eexists _, _. split.
    + rewrite lookback_assign_run.
      erewrite resolve_dial_failed by (cbn; eassumption). reflexivity.
    + cbn. repeat split; [constructor |].
      intros p H.
      repeat (apply elem_of_app in H as [H | H]); try done;
        repeat (apply elem_of_cons in H as [H | H]; [discriminate |]);
        by apply elem_of_nil in H.
  - eexists _, _. split.
    + rewrite lookback_assign_run.
      erewrite resolve_read_failed by (cbn; eassumption). reflexivity.
    + cbn. repeat split; [constructor |].
      intros p H.
      repeat (apply elem_of_app in H as [H | H]); try done;
        repeat (apply elem_of_cons in H as [H | H]; [discriminate |]);
        by apply elem_of_nil in H.
Qed.

Lemma earliest_failure_opens_no_reader_witness :
  exists err s',
    LookbackClient.TopicAssign sample.unreachable "metrics" 3 "earliest" "now"
      sample.connected = (Done (Some err), s') /\
    OffsetResolutionFailed (LibError "connection refused") err /\
    Reader (client s') = None /\
    readers (world s') = [].
Proof.
  destruct (earliest_failure_opens_no_reader sample.unreachable "metrics" 3 "now"
              sample.connected 0%nat (LibError "connection refused")
              eq_refl (or_introl eq_refl))
    as (err & s' & Hrun & Herr & Hreader & Hstore & _).
  exists err, s'. repeat split; assumption.
Defined.

(** C8. For policy "latest" and for every policy other than "latest" and
    "earliest", assignment resolves the start offset to the library's
    last-offset sentinel without talking to a broker.  In part_000 the
    switch yields the sentinel and makes no call; whatever the outcome of
    the assignment, the calls it adds hold no round trip; for a
    topic-partition the library accepts they are [NewReader] and
    [SetOffset] with the sentinel, which leave the reader's cursor at the
    sentinel, and otherwise [NewReader] panics and no call is added.  In
    client.go, once the builder has accepted the credentials, the calls
    added hold no round trip either: for partition 0 of a named topic the
    only call is [NewReader], with the sentinel as start offset, and
    otherwise [NewReader] panics and no call is added. *)
Theorem latest_needs_no_round_trip
    (env : Env) (topic : string) (partition : Z) (policy mode : string) (s : Session) :
  policy = "latest" \/ (policy <> "latest" /\ policy <> "earliest") ->
  let p := length (readers (world s)) in
  LookbackClient.resolve env topic partition policy s
    = (Done (inl kafka.LastOffset, None), s) /\
  (let out := LookbackClient.TopicAssign env topic partition policy mode s in
   exists calls,
     trace (world out.2) = (trace (world s) ++ calls)%list /\
     no_round_trip calls /\
     (kafka.addressable topic partition = true ->
      out.1 = Done None /\
      calls = [kafka.NewReader p; kafka.SetOffset p kafka.LastOffset] /\
      kafka.offset <$> readers (world out.2) !! p = Some kafka.LastOffset) /\
     (kafka.addressable topic partition = false ->
      (exists reason, out.1 = Panic reason) /\ calls = [])) /\
  (forall mechanism,
     getSASLMechanism env (client s) = inl mechanism ->
     let out := GroupClient.TopicAssign env topic partition policy mode s in
     exists calls,
       trace (world out.2) = (trace (world s) ++ calls)%list /\
       no_round_trip calls /\
       (group_addressable topic partition = true ->
        out.1 = Done None /\
        calls = [kafka.NewReader p] /\
        (kafka.StartOffset ∘ kafka.config) <$> readers (world out.2) !! p
          = Some kafka.LastOffset) /\
       (group_addressable topic partition = false ->
        (exists reason, out.1 = Panic reason) /\ calls = [])).
Proof.
  intros Hp p.
  assert (Hne : policy <> "earliest") by (destruct Hp as [-> | [_ H]]; done).
  split; [by apply resolve_other |]. split.
  - cbn zeta. rewrite lookback_assign_run, resolve_other by done. cbn zeta.
    rewrite Validate_lookback. cbn [client world].
    destruct (kafka.addressable topic partition).
    + eexists. split; [reflexivity |]. split; [done |].
      split; [| done]. intros _. split; [done |]. split; [done |].
      cbn. unfold p. by rewrite lookup_fresh.
    + exists []. cbn. rewrite app_nil_r. split; [done |]. split; [done |].
      split; [done |]. intros _. split; [by eexists | done].
  - intros mechanism Hm. cbn zeta. rewrite group_assign_run, Hm. cbn zeta.
    rewrite Validate_group.
    destruct (group_addressable topic partition).
    + eexists. split; [reflexivity |]. split; [done |].
      split; [| done]. intros _. split; [done |]. split; [done |].
      cbn. unfold p. rewrite lookup_fresh. cbn.
      apply String.eqb_neq in Hne. rewrite Hne.
      by destruct (policy =? "latest").
    + exists []. cbn. rewrite app_nil_r. split; [done |]. split; [done |].
      split; [done |]. intros _. split; [by eexists | done].
Qed.

Lemma latest_needs_no_round_trip_witness :
  (exists s',
     LookbackClient.TopicAssign sample.env "metrics" 3 "newest" "now" sample.connected
       = (Done None, s') /\
     trace (world s') = [kafka.NewReader 0%nat; kafka.SetOffset 0%nat kafka.LastOffset]) /\
  (exists s',
     GroupClient.TopicAssign sample.env "metrics" 0 "newest" "now" sample.connected
       = (Done None, s') /\
     trace (world s') = [kafka.NewReader 0%nat]).
Proof.
  assert (Hp : "newest" = "latest" \/ ("newest" <> "latest" /\ "newest" <> "earliest"))
    by (right; split; discriminate).
  split.
  - destruct (latest_needs_no_round_trip sample.env "metrics" 3 "newest" "now"
                sample.connected Hp) as (_ & (calls & Htrace & _ & Hok & _) & _).
    destruct (Hok eq_refl) as (Hrun & -> & _).
    eexists. split; [| exact Htrace].
    rewrite <- Hrun. apply surjective_pairing.
  - destruct (latest_needs_no_round_trip sample.env "metrics" 0 "newest" "now"
                sample.connected Hp) as (_ & _ & Hgroup).
    destruct (Hgroup _ eq_refl) as (calls & Htrace & _ & Hok & _).
    destruct (Hok eq_refl) as (Hrun & -> & _).
    eexists. split; [| exact Htrace].
    rewrite <- Hrun. apply surjective_pairing.
Defined.

(** C10. Every call to assignment, in both files and whatever its
    outcome, leaves the session's [TimestampMode] equal to the argument;
    in particular the field has the new value when the call fails with a
    credential error (client.go) or because the leader dial or the
    watermark read failed (part_000), and nothing else of the client has
    changed then. *)
Theorem assignment_overwrites_TimestampMode
    (env : Env) (topic : string) (partition : Z) (policy mode : string) (s : Session) :
  TimestampMode (client (GroupClient.TopicAssign env topic partition policy mode s).2)
    = mode /\
  TimestampMode (client (LookbackClient.TopicAssign env topic partition policy mode s).2)
    = mode /\
  (forall cause,
     getSASLMechanism env (client s) = inr cause ->
     GroupClient.TopicAssign env topic partition policy mode s
     = (Done (Some (InitFailed (CredentialError cause))),
        {| client := set_TimestampMode mode (client s); world := world s |})) /\
  (forall d cause,
     Dialer (client s) = Some d ->
     (dial_leader env network (BootstrapServers (client s)) topic partition = inr cause \/
      exists conn,
        dial_leader env network (BootstrapServers (client s)) topic partition = inl conn /\
        kafka.offsets conn = inr cause) ->
     exists err s',
       LookbackClient.TopicAssign env topic partition "earliest" mode s
         = (Done (Some err), s') /\
       client s' = set_TimestampMode mode (client s)).
Proof.
  split; [| split; [| split]].
  - rewrite group_assign_run. cbn zeta.
    destruct (getSASLMechanism env (client s)); [| done].
    by destruct (kafka.Validate _).
  - rewrite lookback_assign_run.
    pose proof (resolve_frame env topic partition policy
      {| client := set_TimestampMode mode (client s); world := world s |}) as [Hc _].
    destruct (LookbackClient.resolve _ _ _ _ _) as [[[[off | err] deferred] | r |] s2];
      cbn in *; try (by rewrite Hc).
    destruct (kafka.Validate _); cbn; by rewrite Hc.
  - intros cause Hc. by rewrite group_assign_run, Hc.
  - intros d cause Hd [Hl | (conn & Hl & Ho)]; eexists _, _.
    + rewrite lookback_assign_run.
      erewrite resolve_dial_failed by (cbn; eassumption). split; reflexivity.
    + rewrite lookback_assign_run.
      erewrite resolve_read_failed by (cbn; eassumption). split; reflexivity.
Qed.

Lemma assignment_overwrites_TimestampMode_witness :
  (exists err s',
     GroupClient.TopicAssign sample.env "metrics" 3 "latest" "now"
       {| client := sample.fresh "GSSAPI"; world := empty_world |}
     = (Done (Some err), s') /\ TimestampMode (client s') = "now") /\
  (exists err s',
     LookbackClient.TopicAssign sample.unreachable "metrics" 3 "earliest" "now"
       sample.connected = (Done (Some err), s') /\ TimestampMode (client s') = "now").
Proof.
  split.
  - destruct (assignment_overwrites_TimestampMode sample.env "metrics" 3 "latest" "now"
                {| client := sample.fresh "GSSAPI"; world := empty_world |})
      as (_ & _ & Hgroup & _).
    eexists _, _. split; [exact (Hgroup _ eq_refl) | reflexivity].
  - destruct (assignment_overwrites_TimestampMode sample.unreachable "metrics" 3
                "earliest" "now" sample.connected) as (_ & _ & _ & Hlookback).
    destruct (Hlookback 0%nat (LibError "connection refused") eq_refl (or_introl eq_refl))
      as (err & s' & Hrun & Hclient).
    exists err, s'. split; [exact Hrun | by rewrite Hclient].
Defined.

(** In client.go every assignment runs the builder first. *)
Lemma group_assign_builds_fresh : builds_fresh_transport GroupClient.TopicAssign.
Proof.
  intros env topic partition policy mode s. cbn zeta.
  rewrite group_assign_run. cbn zeta.
  destruct (getSASLMechanism env (client s)) as [mechanism | err]; [| done].
  exists (group_dialer (client s) mechanism).
  destruct (kafka.Validate _) as [reason |]; cbn.
  - exists []. rewrite app_nil_r. do 3 (split; [done |]). split.
    + intros q reader Hq Hlook. apply lookup_lt_Some in Hlook. lia.
    + split; [done |]. split; [| done]. intros c d' Hin. by apply elem_of_nil in Hin.
  - exists [kafka.NewReader (length (readers (world s)))].
    do 3 (split; [done |]). split.
    + intros q reader Hq Hlook.
      apply lookup_lt_Some in Hlook as Hlt. rewrite length_app in Hlt. cbn in Hlt.
      assert (q = length (readers (world s))) as -> by lia.
      rewrite lookup_fresh in Hlook. by injection Hlook as <-.
    + split; [done |]. split.
      * intros c d' [-> | Hin%elem_of_nil]%elem_of_cons; done.
      * intros _. split; [done |]. rewrite lookup_fresh. by eexists.
Qed.

(** In part_000 no assignment runs the builder. *)
Lemma lookback_assign_reuses_dialer : reuses_session_dialer LookbackClient.TopicAssign.
Proof.
  intros env topic partition policy mode s. cbn zeta.
  rewrite lookback_assign_run.
  set (s1 := {| client := set_TimestampMode mode (client s); world := world s |}).
  assert (Hstale : forall q (reader : kafka.Reader) (P : Prop),
            (length (readers (world s)) <= q)%nat ->
            readers (world s) !! q = Some reader -> P).
  { intros q reader P Hq Hlook. apply lookup_lt_Some in Hlook. lia. }
  destruct (String.eqb_spec policy "earliest") as [-> | Hp].
  - destruct (Dialer (client s)) as [d |] eqn:Hd.
    + assert (Hfirst : forall (rest : list kafka.Call) d0,
                "earliest" = "earliest" -> Some d = Some d0 ->
                exists rest',
                  kafka.DialLeader d network (BootstrapServers (client s)) topic partition
                    :: rest
                  = kafka.DialLeader d0 network (BootstrapServers (client s)) topic
                      partition :: rest').
      { intros rest d0 _ [= <-]. by eexists. }
      destruct (dial_leader env network (BootstrapServers (client s)) topic partition)
        as [conn | cause] eqn:Hl.
      * destruct (kafka.offsets conn) as [[low high] | cause] eqn:Ho.
        -- erewrite (resolve_earliest _ _ _ s1 d) by (cbn; eassumption). cbn zeta.
           rewrite Validate_lookback, (dial_leader_addressable _ _ _ _ _ _ Hl).
           cbn. rewrite Hd. do 2 (split; [done |]). split.
           ++ intros q reader Hq Hlook.
              apply lookup_lt_Some in Hlook as Hlt. rewrite length_app in Hlt. cbn in Hlt.
              assert (q = length (readers (world s))) as -> by lia.
              rewrite lookup_fresh in Hlook. injection Hlook as <-. cbn. by rewrite Hd.
           ++ split.
              ** eexists. split; [by rewrite <- app_assoc |]. split; [| apply Hfirst].
                 intros c d0 Hin Hthrough. cbn in Hin.
                 repeat (apply elem_of_cons in Hin as [-> | Hin]; [by try injection Hthrough as <- |]).
                 by apply elem_of_nil in Hin.
              ** intros _. split; [done |]. rewrite lookup_fresh. by eexists.
        -- erewrite (resolve_read_failed _ _ _ s1 d) by (cbn; eassumption).
           cbn. rewrite Hd. do 2 (split; [done |]). split; [intros; by eapply Hstale |].
           split; [| done].
           eexists. split; [by rewrite <- app_assoc |]. split; [| apply Hfirst].
           intros c d0 Hin Hthrough. cbn in Hin.
           repeat (apply elem_of_cons in Hin as [-> | Hin]; [by try injection Hthrough as <- |]).
           by apply elem_of_nil in Hin.
      * erewrite (resolve_dial_failed _ _ _ s1 d) by (cbn; eassumption).
        cbn. rewrite Hd. do 2 (split; [done |]). split; [intros; by eapply Hstale |].
        split; [| done].
        eexists. split; [by rewrite app_nil_r |]. split; [| apply Hfirst].
        intros c d0 Hin Hthrough.
        repeat (apply elem_of_cons in Hin as [-> | Hin]; [by try injection Hthrough as <- |]).
        by apply elem_of_nil in Hin.
    + rewrite (resolve_nil_dialer _ _ _ s1) by done.
      cbn. rewrite Hd. do 2 (split; [done |]). split; [intros; by eapply Hstale |].
      split; [| done].
      exists []. rewrite app_nil_r. split; [done |]. split; [| done].
      intros c d0 Hin. by apply elem_of_nil in Hin.
  - rewrite resolve_other by done. cbn zeta. rewrite Validate_lookback.
    destruct (kafka.addressable topic partition); cbn.
    + do 2 (split; [done |]). split.
      * intros q reader Hq Hlook.
        apply lookup_lt_Some in Hlook as Hlt. rewrite length_app in Hlt. cbn in Hlt.
        assert (q = length (readers (world s))) as -> by lia.
        rewrite lookup_fresh in Hlook. injection Hlook as <-. cbn.
        by destruct (Dialer (client s)).
      * split.
        -- eexists. split; [reflexivity |]. split; [| done].
           intros c d0 Hin Hthrough.
           repeat (apply elem_of_cons in Hin as [-> | Hin]; [done |]).
           by apply elem_of_nil in Hin.
        -- intros _. split; [done |]. rewrite lookup_fresh. by eexists.
    + do 2 (split; [done |]). split; [intros; by eapply Hstale |].
      split; [| done].
      exists []. rewrite app_nil_r. split; [done |]. split; [| done].
      intros c d0 Hin. by apply elem_of_nil in Hin.
Qed.

(** C4, as stated, fails on part_000: on a session whose dialer was built
    earlier, assignment with policy "latest" returns with the session's
    [Dialer] still at the old address, and has allocated no dialer. *)
Lemma lookback_assign_builds_no_transport :
  ~ builds_fresh_transport LookbackClient.TopicAssign.
Proof.
  intros H.
  specialize (H sample.env "metrics" 3 "latest" "now" sample.connected).
  eassert (Hrun : LookbackClient.TopicAssign sample.env "metrics" 3 "latest" "now"
                    sample.connected = (Done None, _)) by (vm_compute; reflexivity).
  cbn zeta in H. rewrite Hrun in H.
  change (getSASLMechanism sample.env (client sample.connected))
    with (@inl (option sasl.Mechanism) error
            (Some (sasl.plain_Mechanism "grafana" "secret"))) in H.
  destruct H as (dialer & calls & Hd & _). cbn in Hd. discriminate.
Qed.

(** C4, amended. In client.go every call to assignment runs the builder
    before it resolves the offset and opens the reader: whatever the
    outcome, the call has either failed with the builder's credential
    error, having allocated and called nothing, or allocated a dialer of
    its own for the session's credentials, through which the reader it
    opens dials.  In part_000 assignment does not run the builder:
    whatever the outcome, it allocates no dialer and leaves the session's
    [Dialer] as it was; with policy "earliest" it dials the leader
    through that existing dialer, every call it makes that dials goes
    through it, and the reader it opens is configured with it (with the
    library's default dialer if the session has none). *)
Theorem assignment_transport :
  builds_fresh_transport GroupClient.TopicAssign /\
  reuses_session_dialer LookbackClient.TopicAssign.
Proof. split; [apply group_assign_builds_fresh | apply lookback_assign_reuses_dialer]. Qed.

Lemma assignment_transport_witness :
  (exists s',
     GroupClient.TopicAssign sample.env "metrics" 0 "latest" "now" sample.connected
       = (Done None, s') /\
     Dialer (client s') = Some 1%nat /\
     kafka.Dialer_ ∘ kafka.config <$> readers (world s') !! 0%nat
       = Some (Some (kafka.At 1%nat))) /\
  (exists s',
     LookbackClient.TopicAssign sample.env "metrics" 0 "earliest" "now" sample.connected
       = (Done None, s') /\
     Dialer (client s') = Some 0%nat /\
     kafka.Dialer_ ∘ kafka.config <$> readers (world s') !! 0%nat
       = Some (Some (kafka.At 0%nat)) /\
     kafka.DialLeader 0%nat "tcp" "broker-1:9092,broker-2:9092" "metrics" 0
       ∈ trace (world s')).
Proof.
  destruct assignment_transport as [Hgroup Hlookback]. split.
  - eassert (Hrun : GroupClient.TopicAssign sample.env "metrics" 0 "latest" "now"
                      sample.connected = (Done None, _)) by (vm_compute; reflexivity).
    specialize (Hgroup sample.env "metrics" 0 "latest" "now" sample.connected).
    cbn zeta in Hgroup. rewrite Hrun in Hgroup.
    change (getSASLMechanism sample.env (client sample.connected))
      with (@inl (option sasl.Mechanism) error
              (Some (sasl.plain_Mechanism "grafana" "secret"))) in Hgroup.
    destruct Hgroup as (dialer & calls & Hd & _ & _ & Hreaders & _).
    eexists. split; [exact Hrun |]. split; [exact Hd |].
    exact (f_equal Some (Hreaders 0%nat _ (le_n _) eq_refl)).
  - eassert (Hrun : LookbackClient.TopicAssign sample.env "metrics" 0 "earliest" "now"
                      sample.connected = (Done None, _)) by (vm_compute; reflexivity).
    specialize (Hlookback sample.env "metrics" 0 "earliest" "now" sample.connected).
    cbn zeta in Hlookback. rewrite Hrun in Hlookback.
    destruct Hlookback as (Hd & _ & Hreaders & (calls & Htrace & _ & Hfirst) & _).
    destruct (Hfirst 0%nat eq_refl eq_refl) as [rest Hcalls].
    eexists. split; [exact Hrun |]. split; [exact Hd |]. split.
    + exact (f_equal Some (Hreaders 0%nat _ (le_n _) eq_refl)).
    + refine (eq_ind_r (fun l => _ ∈ l) _ Htrace).
      rewrite Hcalls. cbn. apply elem_of_cons. by left.
Defined.

(** ** Pulling messages *)

Lemma consumed_usable s p reader rest :
  Reader (client s) = Some p ->
  readers (world s) !! p = Some reader ->
  Reader (client (consumed p reader rest s)) = Some p /\
  exists reader',
    readers (world (consumed p reader rest s)) !! p = Some reader' /\
    kafka.inbox reader' = rest /\
    kafka.closed reader' = kafka.closed reader.
Proof.
  intros Hp Hr. split; [done |]. eexists. split.
  - cbn. apply list_lookup_insert_eq. by eapply lookup_lt_Some.
  - done.
Qed.

Lemma pull_run env s p reader msg rest :
  Reader (client s) = Some p ->
  readers (world s) !! p = Some reader ->
  kafka.inbox reader = inl msg :: rest ->
  GroupClient.ConsumerPull env s = (Done (pulled msg), consumed p reader rest s) /\
  LookbackClient.ConsumerPull env s = (Done (pulled msg), consumed p reader rest s).
Proof.
  intros Hp Hr Hin.
  unfold GroupClient.ConsumerPull, LookbackClient.ConsumerPull, pulled.
  unmonad. cbn. rewrite Hp. cbn. rewrite Hr. cbn. rewrite Hin. cbn.
  by destruct (json.Unmarshal (kafka.Value msg)) as [value [cause |]].
Qed.






(** ** Disposal *)

Lemma ReaderClose_run s p reader :
  readers (world s) !! p = Some reader ->
  lib.ReaderClose (Some p) s = (Done tt, disposed p reader s).
Proof. intros Hr. unmonad. cbn. by rewrite Hr. Qed.

(** In part_000 [Dispose] is guarded: it does nothing on a session
    without a reader, calls [Close] once on a bound reader, and can be
    called again. *)
Lemma lookback_dispose_guarded (s : Session) :
  (Reader (client s) = None -> LookbackClient.Dispose s = (Done tt, s)) /\
  (forall p reader,
     Reader (client s) = Some p ->
     readers (world s) !! p = Some reader ->
     LookbackClient.Dispose s = (Done tt, disposed p reader s) /\
     exists reader',
       LookbackClient.Dispose (disposed p reader s)
         = (Done tt, disposed p reader' (disposed p reader s)) /\
       kafka.closed reader' = true).
Proof.
  split.
  - intros Hn. unfold LookbackClient.Dispose. unmonad. cbn. by rewrite Hn.
  - intros p reader Hp Hr.
    assert (Hstep : forall t rd,
              Reader (client t) = Some p -> readers (world t) !! p = Some rd ->
              LookbackClient.Dispose t = (Done tt, disposed p rd t)).
    { intros t rd Ht Hrd. unfold LookbackClient.Dispose.
      unfold mbind, M_bind, get_client. rewrite Ht. by apply ReaderClose_run. }
    split; [by apply Hstep |].
    exists {| kafka.config := kafka.config reader;
              kafka.offset := kafka.offset reader;
              kafka.closed := true;
              kafka.inbox := kafka.inbox reader |}.
    split; [apply Hstep; [done |] | done].
    cbn. apply list_lookup_insert_eq. by eapply lookup_lt_Some.
Qed.

(** C6. In client.go [Dispose] calls [Close] through the [Reader] field
    without testing it: on a client that was constructed and never
    assigned a topic-partition the call faults. *)
Theorem dispose_before_assignment_faults (options : Options.Options) (w : World) :
  GroupClient.Dispose {| client := NewKafkaClient options; world := w |}
  = (Panic nil_dereference, {| client := NewKafkaClient options; world := w |}).
Proof. reflexivity. Qed.

(** ** The health check *)

Lemma probe_same events err s :
  GroupClient.probe events err s = LookbackClient.probe events err s.
Proof.
  revert err s. induction events as [| [| answer] rest IH]; intros err s; reflexivity.
Qed.

Lemma last_error_cons err e errs :
  last_error (Some e) errs = last_error err (e :: errs).
Proof.
  unfold last_error. destruct errs as [| e' errs]; [done |].
  change (last (e :: e' :: errs)) with (last (e' :: errs)).
  destruct (last (e' :: errs)) eqn:Hlast; [done |].
  by apply last_None in Hlast.
Qed.

Lemma probe_failed_ticks errs rest err s d :
  Dialer (client s) = Some d ->
  LookbackClient.probe (failed_ticks errs ++ rest) err s =
  LookbackClient.probe rest (last_error err errs)
    {| client := client s;
       world := logged (dials (client s) d (length errs)) (world s) |}.
Proof.
  revert err s. induction errs as [| e errs IH]; intros err s Hd.
  - cbn. unfold logged, dials. cbn. rewrite app_nil_r.
    by destruct s as [c [ds rs tr]].
  - cbn [failed_ticks map app LookbackClient.probe].
    unfold mbind at 1, M_bind at 1, get_client at 1. cbn beta iota.
    unfold mbind at 1, M_bind at 1, lib.Dial, lib.deref. rewrite Hd.
    unfold mbind at 1, M_bind at 1, lib.log, modify_world, mret, M_ret. cbn beta iota.
    fold (failed_ticks errs). rewrite IH by done. rewrite <- last_error_cons.
    cbn. unfold logged, dials. cbn. by rewrite <- app_assoc.
Qed.

Lemma probe_timeout rest err s :
  LookbackClient.probe (TimeoutFired :: rest) err s =
  (Done (Some (HealthCheckTimeout (HealthcheckTimeout (client s)) err)), s).
Proof. reflexivity. Qed.

Lemma probe_listing_failed conn cause rest err s d :
  Dialer (client s) = Some d ->
  kafka.partitions conn = inr cause ->
  LookbackClient.probe (TickFired (inl conn) :: rest) err s =
  (Done (Some (PartitionListFailed cause)),
   {| client := client s;
      world := logged [dial_of (client s) d; kafka.ReadPartitions; kafka.ConnClose]
                 (world s) |}).
Proof.
  intros Hd Hps. cbn. unmonad. cbn. rewrite Hd. cbn. rewrite Hps.
  unfold logged. cbn. by rewrite <- !app_assoc.
Qed.

Lemma group_check_run env sched s :
  GroupClient.HealthCheck env sched s =
  match getSASLMechanism env (client s) with
  | inr err => (Done (Some (InitFailed (CredentialError err))), s)
  | inl mechanism =>
      LookbackClient.probe
        (sched (HealthcheckTimeout (client s) * time.Millisecond)
               (200 * time.Millisecond)) None
        (with_new_dialer (group_dialer (client s) mechanism) s)
  end.
Proof.
  unfold GroupClient.HealthCheck. unfold mbind at 1, M_bind at 1.
  rewrite consumerInitialize_run.
  destruct (getSASLMechanism env (client s)); [| reflexivity].
  unfold mbind, M_bind, get_client. apply probe_same.
Qed.

Lemma lookback_check_run env sched s :
  LookbackClient.HealthCheck env sched s =
  match getSASLMechanism env (client s) with
  | inr err => (Done (Some (InitFailed (CredentialError err))), s)
  | inl mechanism =>
      LookbackClient.probe
        (sched (HealthcheckTimeout (client s) * time.Millisecond)
               (200 * time.Millisecond)) None
        (with_new_dialer (lookback_dialer (client s) mechanism) s)
  end.
Proof.
  unfold LookbackClient.HealthCheck. unfold mbind at 1, M_bind at 1.
  rewrite NewConnection_run.
  by destruct (getSASLMechanism env (client s)).
Qed.

(** A deadline shorter than the ticker's period is the first thing the
    loop receives, whatever the broker and the runtime would do later. *)
Lemma clock_deadline_first script timeout period :
  timeout < period ->
  clock.scheduler script timeout period = [TimeoutFired].
Proof.
  intros Hlt. unfold clock.scheduler.
  assert (Hready : clock.ready timeout period
            {| clock.now := 0; clock.buffered := false; clock.next_tick := period |}
          = clock.OnlyTimeout).
  { unfold clock.ready. cbn.
    destruct (Z.leb_spec timeout 0); [done |].
    destruct (Z.ltb_spec timeout period); [done | lia]. }
  destruct script; cbn [clock.events]; by rewrite Hready.
Qed.

(** C2. When the builder has accepted the credentials and the loop
    receives ticks whose dials fail, then a tick whose dial succeeds but
    on whose connection the partition listing fails, the health check (in
    both files) dials once per tick, the failed dials not ending it, and
    returns the partition-listing error as soon as the listing has failed,
    whatever events would follow. *)
Theorem listing_failure_ends_health_check
    (env : Env) (sched : Scheduler) (s : Session) (mechanism : option sasl.Mechanism)
    (errs : list error) (conn : kafka.Conn) (cause : error) (rest : list SelectEvent) :
  getSASLMechanism env (client s) = inl mechanism ->
  sched (HealthcheckTimeout (client s) * time.Millisecond) (200 * time.Millisecond)
    = (failed_ticks errs ++ TickFired (inl conn) :: rest)%list ->
  kafka.partitions conn = inr cause ->
  let d := length (dialers (world s)) in
  let calls := (dials (client s) d (length errs) ++
                [dial_of (client s) d; kafka.ReadPartitions; kafka.ConnClose])%list in
  (exists s',
     GroupClient.HealthCheck env sched s = (Done (Some (PartitionListFailed cause)), s') /\
     trace (world s') = (trace (world s) ++ calls)%list) /\
  (exists s',
     LookbackClient.HealthCheck env sched s = (Done (Some (PartitionListFailed cause)), s') /\
     trace (world s') = (trace (world s) ++ calls)%list).
Proof.
  intros Hm Hsched Hps d calls. split; eexists.
  - rewrite group_check_run, Hm, Hsched.
    rewrite (probe_failed_ticks _ _ _ _ d) by done.
    erewrite probe_listing_failed by (cbn; done).
    split; [reflexivity |]. cbn. by rewrite <- app_assoc.
  - rewrite lookback_check_run, Hm, Hsched.
    rewrite (probe_failed_ticks _ _ _ _ d) by done.
    erewrite probe_listing_failed by (cbn; done).
    split; [reflexivity |]. cbn. by rewrite <- app_assoc.
Qed.

Lemma listing_failure_ends_health_check_witness :
  let sched : Scheduler := fun _ _ =>
    [TickFired (inr (LibError "connection refused")); TickFired (inl sample.no_listing);
     TickFired (inl (sample.watermarks 5 500)); TimeoutFired] in
  exists s',
    LookbackClient.HealthCheck sample.env sched
      {| client := sample.fresh "PLAIN"; world := empty_world |}
    = (Done (Some (PartitionListFailed (LibError "broken pipe"))), s') /\
    trace (world s') =
      [kafka.Dial 0%nat "tcp" "broker-1:9092,broker-2:9092";
       kafka.Dial 0%nat "tcp" "broker-1:9092,broker-2:9092";
       kafka.ReadPartitions; kafka.ConnClose].
Proof.
  intros sched.
  destruct (listing_failure_ends_health_check sample.env sched
              {| client := sample.fresh "PLAIN"; world := empty_world |}
              (Some (sasl.plain_Mechanism "grafana" "secret"))
              [LibError "connection refused"] sample.no_listing (LibError "broken pipe")
              [TickFired (inl (sample.watermarks 5 500)); TimeoutFired]
              eq_refl eq_refl eq_refl) as [_ (s' & Hrun & Htrace)].
  exists s'. split; [exact Hrun | exact Htrace].
Defined.

(** C7, as stated, fails: the loop looks at the timer only between two
    dials, and when the timer and a tick are both waiting, the [select]
    may take the tick.  With a timeout of 1000 ms, a first dial that
    takes ten seconds and fails, and a second dial that succeeds, the
    second tick is received 10.2 s after the start, long after the
    deadline, and the check returns nil. *)
Lemma tick_after_deadline_still_succeeds :
  ~ deadline_is_final LookbackClient.HealthCheck.
Proof.
  intros H.
  destruct (H sample.env {| client := sample.fresh "PLAIN"; world := empty_world |}
              (Some (sasl.plain_Mechanism "grafana" "secret")) sample.stalled eq_refl)
    as (last & s' & Hrun).
  - intros i a conn t Ha Hconn Ht.
    destruct i as [| [| i]]; cbn in Ha.
    + injection Ha as <-. discriminate.
    + vm_compute in Ht. injection Ht as <-. vm_compute. discriminate.
    + discriminate.
  - vm_compute in Hrun. discriminate.
Qed.

(** C7, amended. When the builder has accepted the credentials and the
    [select] receives the timer after ticks whose dials have all failed,
    the health check (in both files) returns the timeout error, which
    names the configured timeout and wraps the error of the last failed
    dial, or nil if no tick came before.  The deadline itself does not
    end the check: it is looked at only between two dials, and a tick
    that is waiting together with the timer may be taken first.  Under
    the clock, a timeout below 200 ms always ends the check with the
    timeout error: it wraps nil and no dial has been made. *)
Theorem deadline_wraps_last_dial_error
    (env : Env) (s : Session) (mechanism : option sasl.Mechanism) :
  getSASLMechanism env (client s) = inl mechanism ->
  let T := HealthcheckTimeout (client s) in
  let d := length (dialers (world s)) in
  (forall (sched : Scheduler) errs rest,
     sched (T * time.Millisecond) (200 * time.Millisecond)
       = (failed_ticks errs ++ TimeoutFired :: rest)%list ->
     (exists s',
        GroupClient.HealthCheck env sched s
          = (Done (Some (HealthCheckTimeout T (last errs))), s') /\
        trace (world s') = (trace (world s) ++ dials (client s) d (length errs))%list) /\
     (exists s',
        LookbackClient.HealthCheck env sched s
          = (Done (Some (HealthCheckTimeout T (last errs))), s') /\
        trace (world s') = (trace (world s) ++ dials (client s) d (length errs))%list)) /\
  (forall script,
     T < 200 ->
     (exists s',
        GroupClient.HealthCheck env (clock.scheduler script) s
          = (Done (Some (HealthCheckTimeout T None)), s') /\
        trace (world s') = trace (world s)) /\
     (exists s',
        LookbackClient.HealthCheck env (clock.scheduler script) s
          = (Done (Some (HealthCheckTimeout T None)), s') /\
        trace (world s') = trace (world s))).
Proof.
  intros Hm T d. subst T.
  assert (Hlast : forall errs, last_error None errs = last errs).
  { intros errs. unfold last_error. by destruct (last errs). }
  split.
  - intros sched errs rest Hsched. split; eexists.
    + rewrite group_check_run, Hm, Hsched.
      rewrite (probe_failed_ticks _ _ _ _ d) by done.
      rewrite probe_timeout, Hlast. split; reflexivity.
    + rewrite lookback_check_run, Hm, Hsched.
      rewrite (probe_failed_ticks _ _ _ _ d) by done.
      rewrite probe_timeout, Hlast. split; reflexivity.
  - intros script HT.
    assert (Hfirst : clock.scheduler script
                       (HealthcheckTimeout (client s) * time.Millisecond)
                       (200 * time.Millisecond) = [TimeoutFired]).
    { apply clock_deadline_first. unfold time.Millisecond. lia. }
    split; eexists.
    + rewrite group_check_run, Hm, Hfirst, probe_timeout. split; reflexivity.
    + rewrite lookback_check_run, Hm, Hfirst, probe_timeout. split; reflexivity.
Qed.

Lemma deadline_wraps_last_dial_error_witness :
  let late : Scheduler := fun _ _ =>
    [TickFired (inr (LibError "connection refused"));
     TickFired (inr (LibError "i/o timeout")); TimeoutFired] in
  let slow := {| clock.tie := false;
                 clock.answer := inl (sample.watermarks 5 500);
                 clock.dial_time := 0 |} in
  (exists s',
     LookbackClient.HealthCheck sample.env late
       {| client := sample.fresh "PLAIN"; world := empty_world |}
     = (Done (Some (HealthCheckTimeout 1000 (Some (LibError "i/o timeout")))), s')) /\
  (exists s',
     LookbackClient.HealthCheck sample.env (clock.scheduler [slow])
       {| client := NewKafkaClient (sample.options "PLAIN" 150); world := empty_world |}
     = (Done (Some (HealthCheckTimeout 150 None)), s') /\
     trace (world s') = []).
Proof.
  intros late slow. split.
  - destruct (deadline_wraps_last_dial_error sample.env
                {| client := sample.fresh "PLAIN"; world := empty_world |}
                (Some (sasl.plain_Mechanism "grafana" "secret")) eq_refl) as [Hlate _].
    destruct (Hlate late [LibError "connection refused"; LibError "i/o timeout"] []
                eq_refl) as [_ (s' & Hrun & _)].
    exists s'. exact Hrun.
  - destruct (deadline_wraps_last_dial_error sample.env
                {| client := NewKafkaClient (sample.options "PLAIN" 150);
                   world := empty_world |}
                (Some (sasl.plain_Mechanism "grafana" "secret")) eq_refl) as [_ Hshort].
    destruct (Hshort [slow] ltac:(cbn; lia)) as [_ (s' & Hrun & Htrace)].
    exists s'. split; [exact Hrun | exact Htrace].
Defined.



(** * Further properties of the two files *)

(** ** Logging *)

Lemma lower_ascii_idempotent c : lower_ascii (lower_ascii c) = lower_ascii c.
Proof. by destruct c as [[] [] [] [] [] [] [] []]. Qed.

Lemma strings_ToLower_idempotent s :
  strings_ToLower (strings_ToLower s) = strings_ToLower s.
Proof.
  induction s as [| c s IH]; [done |]. cbn. by rewrite lower_ascii_idempotent, IH.
Qed.

(** X1. [getKafkaLogger] looks at the level only through its lower-case
    form: the debug sink is enabled exactly for "debug", the error sink
    exactly for "debug" and "error", and a level and its lower-case form
    get the same sinks. *)
Theorem logger_sinks_by_level (level : string) :
  ((getKafkaLogger level).1 <> kafka.noop <-> strings_ToLower level = "debug") /\
  ((getKafkaLogger level).2 <> kafka.noop <->
   strings_ToLower level = "debug" \/ strings_ToLower level = "error") /\
  getKafkaLogger (strings_ToLower level) = getKafkaLogger level.
Proof.
  split; [| split].
  - unfold getKafkaLogger, debugLogLevel, errorLogLevel.
    destruct (String.eqb_spec (strings_ToLower level) "debug") as [E | E]; cbn.
    + split; [done | discriminate].
    + destruct (strings_ToLower level =? "error"); cbn; split; done.
  - unfold getKafkaLogger, debugLogLevel, errorLogLevel.
    destruct (String.eqb_spec (strings_ToLower level) "debug") as [E | E]; cbn.
    + split; [by left | discriminate].
    + destruct (String.eqb_spec (strings_ToLower level) "error") as [E' | E']; cbn.
      * split; [by right | discriminate].
      * split; [done | by intros [? | ?]].
  - unfold getKafkaLogger. by rewrite strings_ToLower_idempotent.
Qed.

Lemma logger_sinks_by_level_witness :
  getKafkaLogger "DeBuG" = (kafka.printf "[KAFKA DEBUG] ", kafka.printf "[KAFKA ERROR] ") /\
  (getKafkaLogger "ERROR").1 = kafka.noop /\
  (getKafkaLogger "ERROR").2 <> kafka.noop /\
  (getKafkaLogger "warn").2 = kafka.noop.
Proof.
  split; [reflexivity |]. split; [reflexivity |]. split; [| reflexivity].
  apply (proj2 (logger_sinks_by_level "ERROR")). right. reflexivity.
Defined.

(** ** The builders *)

(** X2. When the credentials are accepted, each builder allocates one
    dialer and points the session at it, touching nothing else: the
    dialer has the 10 s timeout and the mechanism of the credentials, and
    it has a TLS configuration exactly when the security protocol is
    "SASL_SSL" (with TLS 1.3 as minimum in part_000, the library default
    in client.go). *)
Theorem builder_allocates_one_dialer
    (env : Env) (s : Session) (mechanism : option sasl.Mechanism) :
  getSASLMechanism env (client s) = inl mechanism ->
  exists dg dl,
    GroupClient.consumerInitialize env s = (Done None, with_new_dialer dg s) /\
    LookbackClient.NewConnection env s = (Done None, with_new_dialer dl s) /\
    kafka.Timeout dg = 10000000000 /\ kafka.Timeout dl = 10000000000 /\
    kafka.SASLMechanism dg = mechanism /\ kafka.SASLMechanism dl = mechanism /\
    (SecurityProtocol (client s) = "SASL_SSL" ->
     kafka.TLS dg = Some {| tls.MinVersion := 0 |} /\
     kafka.TLS dl = Some {| tls.MinVersion := tls.VersionTLS13 |}) /\
    (SecurityProtocol (client s) <> "SASL_SSL" ->
     kafka.TLS dg = None /\ kafka.TLS dl = None).
Proof.
  intros Hm.
  exists (group_dialer (client s) mechanism), (lookback_dialer (client s) mechanism).
  rewrite consumerInitialize_run, NewConnection_run, Hm. cbn.
  repeat split; try reflexivity.
  - by rewrite H.
  - by rewrite H.
  - apply String.eqb_neq in H. by rewrite H.
  - apply String.eqb_neq in H. by rewrite H.
Qed.

Lemma builder_allocates_one_dialer_witness :
  exists d,
    LookbackClient.NewConnection sample.env
      {| client := sample.fresh "SCRAM-SHA-512"; world := empty_world |}
    = (Done None,
       with_new_dialer d {| client := sample.fresh "SCRAM-SHA-512"; world := empty_world |}) /\
    kafka.TLS d = Some {| tls.MinVersion := 772 |}.
Proof.
  destruct (builder_allocates_one_dialer sample.env
              {| client := sample.fresh "SCRAM-SHA-512"; world := empty_world |}
              _ eq_refl)
    as (dg & dl & _ & Hrun & _ & _ & _ & _ & Htls & _).
  exists dl. split; [exact Hrun | exact (proj2 (Htls eq_refl))].
Defined.

(** X3. For the two SCRAM names an error of the scram package is the
    error of [getSASLMechanism]; both builders wrap it and leave the
    session as it was. *)
Theorem scram_error_is_passed_on
    (env : Env) (s : Session) (algo : sasl.Algorithm) (cause : error) :
  (SaslMechanisms (client s) = "SCRAM-SHA-256" /\ algo = sasl.SHA256) \/
  (SaslMechanisms (client s) = "SCRAM-SHA-512" /\ algo = sasl.SHA512) ->
  scram_Mechanism env algo (SaslUsername (client s)) (SaslPassword (client s))
    = inr cause ->
  getSASLMechanism env (client s) = inr cause /\
  GroupClient.consumerInitialize env s = (Done (Some (CredentialError cause)), s) /\
  LookbackClient.NewConnection env s = (Done (Some (CredentialError cause)), s).
Proof.
  intros Hname Hscram.
  assert (Hm : getSASLMechanism env (client s) = inr cause).
  { unfold getSASLMechanism.
    destruct Hname as [[-> ->] | [-> ->]]; cbn; by rewrite Hscram. }
  by rewrite consumerInitialize_run, NewConnection_run, Hm.
Qed.

Lemma scram_error_is_passed_on_witness :
  LookbackClient.NewConnection sample.strict
    {| client := sample.fresh "SCRAM-SHA-256"; world := empty_world |}
  = (Done (Some (CredentialError (LibError "prohibited character"))),
     {| client := sample.fresh "SCRAM-SHA-256"; world := empty_world |}).
Proof.
  exact (proj2 (proj2 (scram_error_is_passed_on sample.strict
           {| client := sample.fresh "SCRAM-SHA-256"; world := empty_world |}
           sasl.SHA256 (LibError "prohibited character")
           (or_introl (conj eq_refl eq_refl)) eq_refl))).
Defined.

(** ** The health check, continued *)

Lemma probe_success conn ps rest err s d :
  Dialer (client s) = Some d ->
  kafka.partitions conn = inl ps ->
  LookbackClient.probe (TickFired (inl conn) :: rest) err s =
  (Done None,
   {| client := client s;
      world := logged [dial_of (client s) d; kafka.ReadPartitions; kafka.ConnClose]
                 (world s) |}).
Proof.
  intros Hd Hps. cbn. unmonad. cbn. rewrite Hd. cbn. rewrite Hps.
  unfold logged. cbn. by rewrite <- !app_assoc.
Qed.

(** X4. When the builder has accepted the credentials and, after ticks
    whose dials fail, a tick comes whose dial and partition listing both
    succeed, the health check returns nil: it has dialled once per tick
    through the dialer it built, listed the partitions once and closed
    the connection, and later events play no part. *)
Theorem health_check_succeeds_after_failures
    (env : Env) (sched : Scheduler) (s : Session) (mechanism : option sasl.Mechanism)
    (errs : list error) (conn : kafka.Conn) (ps : list kafka.Partition)
    (rest : list SelectEvent) :
  getSASLMechanism env (client s) = inl mechanism ->
  sched (HealthcheckTimeout (client s) * time.Millisecond) (200 * time.Millisecond)
    = (failed_ticks errs ++ TickFired (inl conn) :: rest)%list ->
  kafka.partitions conn = inl ps ->
  let d := length (dialers (world s)) in
  let calls := (dials (client s) d (S (length errs)) ++
                [kafka.ReadPartitions; kafka.ConnClose])%list in
  (exists s',
     GroupClient.HealthCheck env sched s = (Done None, s') /\
     Dialer (client s') = Some d /\
     trace (world s') = (trace (world s) ++ calls)%list) /\
  (exists s',
     LookbackClient.HealthCheck env sched s = (Done None, s') /\
     Dialer (client s') = Some d /\
     trace (world s') = (trace (world s) ++ calls)%list).
Proof.
  intros Hm Hsched Hps d calls.
  assert (Hcalls : forall c : KafkaClient,
            (dials c d (length errs) ++
             [dial_of c d; kafka.ReadPartitions; kafka.ConnClose])%list
            = (dials c d (S (length errs)) ++ [kafka.ReadPartitions; kafka.ConnClose])%list).
  { intros c. unfold dials. change (S (length errs)) with (1 + length errs)%nat.
    rewrite Nat.add_comm, replicate_add. cbn. by rewrite <- app_assoc. }
  split; eexists.
  - rewrite group_check_run, Hm, Hsched.
    rewrite (probe_failed_ticks _ _ _ _ d) by done.
    erewrite probe_success by (cbn; done).
    split; [reflexivity |]. split; [reflexivity |].
    cbn. rewrite <- app_assoc. f_equal. apply (Hcalls (client s)).
  - rewrite lookback_check_run, Hm, Hsched.
    rewrite (probe_failed_ticks _ _ _ _ d) by done.
    erewrite probe_success by (cbn; done).
    split; [reflexivity |]. split; [reflexivity |].
    cbn. rewrite <- app_assoc. f_equal. apply (Hcalls (client s)).
Qed.

Lemma health_check_succeeds_after_failures_witness :
  let sched : Scheduler := fun _ _ =>
    [TickFired (inr (LibError "connection refused")); TickFired (inl sample.healthy);
     TimeoutFired] in
  exists s',
    GroupClient.HealthCheck sample.env sched
      {| client := sample.fresh ""; world := empty_world |} = (Done None, s') /\
    trace (world s') =
      [kafka.Dial 0%nat "tcp" "broker-1:9092,broker-2:9092";
       kafka.Dial 0%nat "tcp" "broker-1:9092,broker-2:9092";
       kafka.ReadPartitions; kafka.ConnClose].
Proof.
  intros sched.
  destruct (health_check_succeeds_after_failures sample.env sched
              {| client := sample.fresh ""; world := empty_world |} None
              [LibError "connection refused"] sample.healthy _ [TimeoutFired]
              eq_refl eq_refl eq_refl) as [(s' & Hrun & _ & Htrace) _].
  exists s'. split; [exact Hrun | exact Htrace].
Defined.

(** X5. When the credentials are refused, the health check of either
    file and [IsTopicExists] return at once with the wrapped credential
    error, whatever the timer, the ticker, the broker and the cluster
    would do, and leave the session as it was: no dialer is built and no
    call is made. *)
Theorem refused_credentials_fail_fast
    (env : Env) (s : Session) (cause : error) :
  getSASLMechanism env (client s) = inr cause ->
  (forall sched,
     GroupClient.HealthCheck env sched s
       = (Done (Some (InitFailed (CredentialError cause))), s) /\
     LookbackClient.HealthCheck env sched s
       = (Done (Some (InitFailed (CredentialError cause))), s)) /\
  (forall cluster topicName,
     LookbackClient.IsTopicExists env cluster topicName s
       = (Done (false, Some (CredentialError cause)), s)).
Proof.
  intros Hm. split.
  - intros sched. by rewrite group_check_run, lookback_check_run, Hm.
  - intros cluster topicName. unfold LookbackClient.IsTopicExists.
    unmonad. cbn. by rewrite getSASLMechanism_unguarded, Hm.
Qed.

Lemma refused_credentials_fail_fast_witness :
  LookbackClient.HealthCheck sample.env (fun _ _ => [TickFired (inl sample.healthy)])
    {| client := sample.fresh "GSSAPI"; world := empty_world |}
  = (Done (Some (InitFailed (CredentialError (UnsupportedMechanism "GSSAPI")))),
     {| client := sample.fresh "GSSAPI"; world := empty_world |}).
Proof.
  exact (proj2 (proj1 (refused_credentials_fail_fast sample.env
           {| client := sample.fresh "GSSAPI"; world := empty_world |}
           (UnsupportedMechanism "GSSAPI") eq_refl) _)).
Defined.

Lemma probe_frame events err s :
  let out := LookbackClient.probe events err s in
  client out.2 = client s /\
  dialers (world out.2) = dialers (world s) /\
  readers (world out.2) = readers (world s) /\
  exists calls,
    trace (world out.2) = (trace (world s) ++ calls)%list /\
    forallb probe_call calls = true.
Proof.
  revert err s. induction events as [| [| answer] rest IH]; intros err s.
  - cbn. repeat split. exists []. by rewrite app_nil_r.
  - cbn. repeat split. exists []. by rewrite app_nil_r.
  - destruct (Dialer (client s)) as [d |] eqn:Hd.
    + destruct answer as [conn | e].
      * destruct (kafka.partitions conn) as [ps | cause] eqn:Hps.
        -- erewrite probe_success by done. cbn. repeat split. by eexists.
        -- erewrite probe_listing_failed by done. cbn. repeat split. by eexists.
      * change (TickFired (inr e) :: rest) with (failed_ticks [e] ++ rest)%list.
        rewrite (probe_failed_ticks _ _ _ _ d) by done.
        specialize (IH (last_error err [e])
          {| client := client s;
             world := logged (dials (client s) d (length [e])) (world s) |}).
        cbn zeta in IH. destruct IH as (Hc & Hds & Hrs & calls & Htr & Hok).
        cbn in *. rewrite Hc, Hds, Hrs. repeat split.
        exists (dial_of (client s) d :: calls).
        split; [by rewrite Htr, <- app_assoc | done].
    + cbn. unmonad. cbn. rewrite Hd. cbn. repeat split.
      exists []. by rewrite app_nil_r.
Qed.

(** X6. A health check, whatever its outcome, never touches the reader
    side of the session: the [Reader] field, the timestamp mode and the
    configuration fields keep their values, no reader is allocated or
    changed, and the only library calls it makes are dials, partition
    listings and closes of the connections it opened. *)
Theorem health_check_leaves_reader_alone
    (env : Env) (sched : Scheduler) (s : Session) :
  let inert (out : Res (option error) * Session) :=
    Reader (client out.2) = Reader (client s) /\
    TimestampMode (client out.2) = TimestampMode (client s) /\
    BootstrapServers (client out.2) = BootstrapServers (client s) /\
    HealthcheckTimeout (client out.2) = HealthcheckTimeout (client s) /\
    readers (world out.2) = readers (world s) /\
    exists calls,
      trace (world out.2) = (trace (world s) ++ calls)%list /\
      forallb probe_call calls = true in
  inert (GroupClient.HealthCheck env sched s) /\
  inert (LookbackClient.HealthCheck env sched s).
Proof.
  cbn zeta. rewrite group_check_run, lookback_check_run.
  destruct (getSASLMechanism env (client s)) as [mechanism | cause].
  - split.
    + pose proof (probe_frame
        (sched (HealthcheckTimeout (client s) * time.Millisecond)
               (200 * time.Millisecond)) None
        (with_new_dialer (group_dialer (client s) mechanism) s)) as H.
      cbn zeta in H. destruct H as (Hc & _ & Hrs & calls & Htr & Hok).
      rewrite Hc, Hrs. repeat split. by exists calls.
    + pose proof (probe_frame
        (sched (HealthcheckTimeout (client s) * time.Millisecond)
               (200 * time.Millisecond)) None
        (with_new_dialer (lookback_dialer (client s) mechanism) s)) as H.
      cbn zeta in H. destruct H as (Hc & _ & Hrs & calls & Htr & Hok).
      rewrite Hc, Hrs. repeat split. by exists calls.
  - cbn. repeat split; exists []; by rewrite app_nil_r.
Qed.

(** ** The health check under the clock *)

Lemma events_deadline_next timeout period script k :
  clock.buffered k = false ->
  timeout < clock.next_tick k ->
  clock.events timeout period script k = [TimeoutFired].
Proof.
  intros Hb Hlt.
  assert (Hready : clock.ready timeout period k = clock.OnlyTimeout).
  { unfold clock.ready. rewrite Hb.
    destruct (Z.leb_spec timeout (clock.now k)); [done |].
    destruct (Z.ltb_spec timeout (clock.next_tick k)); [done | lia]. }
  destruct script; cbn [clock.events]; by rewrite Hready.
Qed.

(** While dials take less than a period and the deadline lies beyond the
    ticks concerned, every attempt of the script gets its tick. *)
Lemma events_quick_ticks timeout period script :
  0 < period ->
  Forall (quick period) script ->
  forall k,
    clock.buffered k = false ->
    clock.now k < clock.next_tick k ->
    clock.next_tick k + period * (Z.of_nat (length script) - 1) < timeout ->
    exists k',
      clock.buffered k' = false /\
      clock.now k' < clock.next_tick k' /\
      clock.next_tick k' = clock.next_tick k + period * Z.of_nat (length script) /\
      forall more,
        clock.events timeout period (script ++ more) k
        = (ticks_of script ++ clock.events timeout period more k')%list.
Proof.
  intros Hperiod Hquick. induction Hquick as [| a script Ha _ IH]; intros k Hb Hnow Hlate.
  - exists k. split; [done |]. split; [done |]. split; [cbn; lia | done].
  - cbn [length] in Hlate. rewrite Nat2Z.inj_succ in Hlate.
    set (k2 := {| clock.now := clock.next_tick k + clock.dial_time a;
                  clock.buffered := false;
                  clock.next_tick := clock.next_tick k + period |}).
    destruct Ha as [Ha0 Ha1].
    destruct (IH k2) as (k' & Hb' & Hnow' & Hnext' & Hev); [done | cbn; lia | cbn; nia |].
    exists k'. split; [done |]. split; [done |]. split.
    + rewrite Hnext'. cbn [length clock.next_tick k2]. lia.
    + intros more. cbn [app ticks_of map clock.events].
      assert (Hready : clock.ready timeout period k =
                clock.OnlyTick {| clock.now := clock.next_tick k;
                                  clock.buffered := false;
                                  clock.next_tick := clock.next_tick k + period |}).
      { unfold clock.ready. rewrite Hb.
        destruct (Z.leb_spec timeout (clock.now k)); [nia |].
        destruct (Z.ltb_spec timeout (clock.next_tick k)); [nia |].
        destruct (Z.ltb_spec (clock.next_tick k) timeout); [done | nia]. }
      rewrite Hready.
      assert (Hadv : clock.advance period (clock.dial_time a)
                {| clock.now := clock.next_tick k;
                   clock.buffered := false;
                   clock.next_tick := clock.next_tick k + period |} = k2).
      { unfold clock.advance, k2. cbn.
        rewrite Z.max_r by lia.
        destruct (Z.leb_spec (clock.next_tick k + period)
                    (clock.next_tick k + clock.dial_time a)); [lia | done]. }
      rewrite Hadv. f_equal. apply Hev.
Qed.

Lemma ticks_of_failures fails errs :
  map clock.answer fails = map inr errs ->
  length errs = length fails /\ ticks_of fails = failed_ticks errs.
Proof.
  revert errs. induction fails as [| a fails IH]; intros [| e errs] H; try done.
  cbn in H. injection H as Ha Hrest. destruct (IH errs Hrest) as [Hlen Hticks].
  split; [cbn; by rewrite Hlen |].
  unfold ticks_of, failed_ticks in *. cbn. by rewrite Ha, Hticks.
Qed.

(** X7. Under the clock, with the credentials accepted and every dial
    taking less than the 200 ms period: if the first [n] dials fail and
    the next one succeeds together with the partition listing, a timeout
    above [200 * (n + 1)] ms lets the health check return nil; if the
    first [n] dials fail and the timeout lies strictly between [200 * n]
    and [200 * (n + 1)] ms, the check returns the timeout error wrapping
    the error of the [n]-th dial (nil for [n = 0]), whatever would have
    come next. *)
Theorem health_check_under_clock
    (env : Env) (s : Session) (mechanism : option sasl.Mechanism)
    (fails : list clock.Attempt) (errs : list error) :
  getSASLMechanism env (client s) = inl mechanism ->
  Forall (quick (200 * time.Millisecond)) fails ->
  map clock.answer fails = map inr errs ->
  let T := HealthcheckTimeout (client s) in
  let n := Z.of_nat (length fails) in
  (forall ok conn ps more,
     quick (200 * time.Millisecond) ok ->
     clock.answer ok = inl conn ->
     kafka.partitions conn = inl ps ->
     200 * (n + 1) < T ->
     (GroupClient.HealthCheck env (clock.scheduler (fails ++ ok :: more)) s).1
       = Done None /\
     (LookbackClient.HealthCheck env (clock.scheduler (fails ++ ok :: more)) s).1
       = Done None) /\
  (forall more,
     200 * n < T < 200 * (n + 1) ->
     (GroupClient.HealthCheck env (clock.scheduler (fails ++ more)) s).1
       = Done (Some (HealthCheckTimeout T (last errs))) /\
     (LookbackClient.HealthCheck env (clock.scheduler (fails ++ more)) s).1
       = Done (Some (HealthCheckTimeout T (last errs)))).
Proof.
  intros Hm Hquick Hans T n. subst T n.
  destruct (ticks_of_failures fails errs Hans) as [Hlen Hticks].
  set (k0 := {| clock.now := 0; clock.buffered := false;
                clock.next_tick := 200 * time.Millisecond |}).
  assert (Hlast : last_error None errs = last errs).
  { unfold last_error. by destruct (last errs). }
  split.
  - intros ok conn ps more Hok Hconn Hps HT.
    assert (Hq : Forall (quick (200 * time.Millisecond)) (fails ++ [ok])).
    { apply Forall_app. split; [done | by constructor]. }
    destruct (events_quick_ticks (HealthcheckTimeout (client s) * time.Millisecond)
                (200 * time.Millisecond) (fails ++ [ok]) ltac:(done) Hq k0)
      as (k' & _ & _ & _ & Hev); [done | done | |].
    { rewrite length_app. cbn. unfold time.Millisecond. lia. }
    assert (Hsched : clock.scheduler (fails ++ ok :: more)
                       (HealthcheckTimeout (client s) * time.Millisecond)
                       (200 * time.Millisecond)
                     = (failed_ticks errs ++ TickFired (inl conn) ::
                        clock.events (HealthcheckTimeout (client s) * time.Millisecond)
                          (200 * time.Millisecond) more k')%list).
    { unfold clock.scheduler. fold k0.
      replace (fails ++ ok :: more)%list with ((fails ++ [ok]) ++ more)%list
        by (by rewrite <- app_assoc).
      rewrite Hev. unfold ticks_of. rewrite map_app, <- app_assoc. cbn.
      fold (ticks_of fails). by rewrite Hticks, Hconn. }
    rewrite group_check_run, lookback_check_run, Hm, Hsched.
    rewrite !(probe_failed_ticks _ _ _ _ (length (dialers (world s)))) by done.
    split; by erewrite probe_success by (cbn; done).
  - intros more HT.
    destruct (events_quick_ticks (HealthcheckTimeout (client s) * time.Millisecond)
                (200 * time.Millisecond) fails ltac:(done) Hquick k0)
      as (k' & Hb' & _ & Hnext' & Hev); [done | done | |].
    { cbn. unfold time.Millisecond. lia. }
    assert (Hsched : clock.scheduler (fails ++ more)
                       (HealthcheckTimeout (client s) * time.Millisecond)
                       (200 * time.Millisecond)
                     = (failed_ticks errs ++ [TimeoutFired])%list).
    { unfold clock.scheduler. fold k0. rewrite Hev, Hticks. f_equal.
      apply events_deadline_next; [done |].
      rewrite Hnext'. cbn. unfold time.Millisecond. lia. }
    rewrite group_check_run, lookback_check_run, Hm, Hsched.
    rewrite !(probe_failed_ticks _ _ _ _ (length (dialers (world s)))) by done.
    by rewrite probe_timeout, Hlast.
Qed.

Lemma health_check_under_clock_witness :
  let refused := failing_attempt false (LibError "connection refused") 30000000 in
  let reached := {| clock.tie := true; clock.answer := inl sample.healthy;
                    clock.dial_time := 5000000 |} in
  (LookbackClient.HealthCheck sample.env (clock.scheduler [refused; refused; reached])
     {| client := sample.fresh "PLAIN"; world := empty_world |}).1 = Done None /\
  (LookbackClient.HealthCheck sample.env (clock.scheduler [refused; refused; reached])
     {| client := NewKafkaClient (sample.options "PLAIN" 450); world := empty_world |}).1
  = Done (Some (HealthCheckTimeout 450 (Some (LibError "connection refused")))).
Proof.
  intros refused reached.
  assert (Hquick : Forall (quick (200 * time.Millisecond)) [refused; refused]).
  { repeat constructor; unfold refused, failing_attempt, time.Millisecond; cbn; lia. }
  split.
  - destruct (health_check_under_clock sample.env
                {| client := sample.fresh "PLAIN"; world := empty_world |} _
                [refused; refused]
                [LibError "connection refused"; LibError "connection refused"]
                eq_refl Hquick eq_refl) as [Hok _].
    refine (proj2 (Hok reached sample.healthy _ [] _ eq_refl eq_refl _)).
    + unfold quick, reached, time.Millisecond. cbn. lia.
    + cbn. lia.
  - destruct (health_check_under_clock sample.env
                {| client := NewKafkaClient (sample.options "PLAIN" 450);
                   world := empty_world |} _
                [refused; refused]
                [LibError "connection refused"; LibError "connection refused"]
                eq_refl Hquick eq_refl) as [_ Hlate].
    refine (proj2 (Hlate [reached] _)). cbn. lia.
Defined.

(** ** Topic existence *)

Lemma topic_exists_run env cluster topicName s :
  LookbackClient.IsTopicExists env cluster topicName s =
  (Done
     match getSASLMechanism env (client s) with
     | inr err => (false, Some (CredentialError err))
     | inl mechanism =>
         match cluster (topic_client (client s) mechanism) with
         | inr err => (false, Some (MetadataFailed err))
         | inl meta =>
             (LookbackClient.scan_topics (metadata.Topics meta) topicName false, None)
         end
     end, s).
Proof.
  unfold LookbackClient.IsTopicExists, topic_client. unmonad. cbn.
  rewrite getSASLMechanism_unguarded.
  destruct (getSASLMechanism env (client s)) as [[m |] | err]; cbn; try reflexivity;
    by destruct (cluster _).
Qed.

Lemma scan_topics_found topics topicName :
  LookbackClient.scan_topics topics topicName false = true <->
  topicName ∈ map metadata.Name topics.
Proof.
  induction topics as [| topic topics IH]; cbn.
  - split; [done | by intros ?%elem_of_nil].
  - destruct (String.eqb_spec (metadata.Name topic) topicName) as [E | E].
    + split; [intros _; rewrite E; by left | done].
    + rewrite IH, elem_of_cons. split; [by right | by intros [? | ?]].
Qed.

(** X8. When the credentials are accepted and the cluster answers the
    metadata request, [IsTopicExists] returns no error and says true
    exactly when one of the topics of the answer has the given name
    (compared byte for byte); the session is left as it was. *)
Theorem topic_exists_iff_listed
    (env : Env) (cluster : metadata.Cluster) (topicName : string) (s : Session)
    (mechanism : option sasl.Mechanism) (meta : metadata.MetadataResponse) :
  getSASLMechanism env (client s) = inl mechanism ->
  cluster (topic_client (client s) mechanism) = inl meta ->
  exists found,
    LookbackClient.IsTopicExists env cluster topicName s = (Done (found, None), s) /\
    (found = true <-> topicName ∈ map metadata.Name (metadata.Topics meta)).
Proof.
  intros Hm Hmeta. eexists. split.
  - by rewrite topic_exists_run, Hm, Hmeta.
  - apply scan_topics_found.
Qed.

Lemma topic_exists_iff_listed_witness :
  LookbackClient.IsTopicExists sample.env sample.two_topics "t2" sample.connected
    = (Done (true, None), sample.connected) /\
  LookbackClient.IsTopicExists sample.env sample.two_topics "T2" sample.connected
    = (Done (false, None), sample.connected).
Proof.
  split.
  - destruct (topic_exists_iff_listed sample.env sample.two_topics "t2" sample.connected
                _ _ eq_refl eq_refl) as (found & Hrun & Hfound).
    assert (Ht : found = true) by (apply Hfound; cbn; set_solver).
    by rewrite Hrun, Ht.
  - destruct (topic_exists_iff_listed sample.env sample.two_topics "T2" sample.connected
                _ _ eq_refl eq_refl) as (found & Hrun & Hfound).
    assert (Hf : found = false).
    { destruct found; [| done].
      assert (Hin : "T2" ∈ ["t1"; "t2"]) by (by apply Hfound).
      apply elem_of_cons in Hin as [Hin | Hin]; [discriminate |].
      apply elem_of_cons in Hin as [Hin | Hin]; [discriminate |].
      by apply elem_of_nil in Hin. }
    by rewrite Hrun, Hf.
Defined.

(** X9. [IsTopicExists] never changes the session, and it reaches the
    cluster only through a client without a TLS configuration, whatever
    the security protocol of the session: two clusters that answer such
    clients alike give the same result.  When the metadata request fails,
    the result is false with the wrapped cause. *)
Theorem topic_check_uses_no_tls
    (env : Env) (topicName : string) (s : Session) :
  (forall cluster, (LookbackClient.IsTopicExists env cluster topicName s).2 = s) /\
  (forall cluster1 cluster2,
     (forall c,
        (forall t, metadata.Transport_ c = Some t -> metadata.TLS t = None) ->
        cluster1 c = cluster2 c) ->
     LookbackClient.IsTopicExists env cluster1 topicName s
     = LookbackClient.IsTopicExists env cluster2 topicName s) /\
  (forall cluster mechanism cause,
     getSASLMechanism env (client s) = inl mechanism ->
     cluster (topic_client (client s) mechanism) = inr cause ->
     LookbackClient.IsTopicExists env cluster topicName s
     = (Done (false, Some (MetadataFailed cause)), s)).
Proof.
  split; [| split].
  - intros cluster. by rewrite topic_exists_run.
  - intros cluster1 cluster2 Hsame. rewrite !topic_exists_run.
    destruct (getSASLMechanism env (client s)) as [mechanism | err]; [| done].
    rewrite Hsame; [done |].
    intros t. unfold topic_client. cbn. destruct mechanism; [| done].
    by intros [= <-].
  - intros cluster mechanism cause Hm Hdown. by rewrite topic_exists_run, Hm, Hdown.
Qed.

Lemma topic_check_uses_no_tls_witness :
  LookbackClient.IsTopicExists sample.env sample.cluster_down "metrics" sample.connected
  = (Done (false, Some (MetadataFailed (LibError "no brokers available"))),
     sample.connected).
Proof.
  exact (proj2 (proj2 (topic_check_uses_no_tls sample.env "metrics" sample.connected))
           sample.cluster_down _ _ eq_refl eq_refl).
Defined.

(** ** Assignment, continued *)

Lemma added_calls_exclude (ok : kafka.Call -> bool) c tr calls :
  forallb ok calls = true -> ok c = false ->
  c ∈ (tr ++ calls)%list -> c ∈ tr.
Proof.
  intros Hall Hc [Hin | Hin]%elem_of_app; [done |].
  apply list_elem_of_In in Hin. rewrite forallb_forall in Hall.
  specialize (Hall _ Hin). congruence.
Qed.

Lemma resolve_inv env topic partition policy s :
  let out := LookbackClient.resolve env topic partition policy s in
  client out.2 = client s /\
  dialers (world out.2) = dialers (world s) /\
  readers (world out.2) = readers (world s) /\
  (exists calls,
     trace (world out.2) = (trace (world s) ++ calls)%list /\
     forallb not_reader_close calls = true) /\
  match out.1 with
  | Done (inr err, _) => exists cause, OffsetResolutionFailed cause err
  | Done (inl _, _) => True
  | Panic _ => out.2 = s /\ Dialer (client s) = None /\ policy = "earliest"
  | Blocked => False
  end.
Proof.
  assert (Hsame : exists calls,
            trace (world s) = (trace (world s) ++ calls)%list /\
            forallb not_reader_close calls = true)
    by (exists []; by rewrite app_nil_r).
  destruct (String.eqb_spec policy "earliest") as [-> | Hp].
  - destruct (Dialer (client s)) as [d |] eqn:Hd.
    + destruct (dial_leader env network (BootstrapServers (client s)) topic partition)
        as [conn | cause] eqn:Hl.
      * destruct (kafka.offsets conn) as [[low high] | cause] eqn:Ho.
        -- erewrite resolve_earliest by done. cbn.
           do 3 (split; [done |]). split; [by eexists | done].
        -- erewrite resolve_read_failed by done. cbn.
           do 3 (split; [done |]). split; [by eexists | eexists; constructor].
      * erewrite resolve_dial_failed by done. cbn.
        do 3 (split; [done |]). split; [by eexists | eexists; constructor].
    + rewrite resolve_nil_dialer by done. cbn. by do 3 (split; [done |]).
  - rewrite resolve_other by done. cbn. by do 3 (split; [done |]).
Qed.

(** X10. Assignment never closes a reader: in both files and whatever
    the outcome, every reader that existed before the call is still in
    the store exactly as it was, and the call adds no [Close] of a reader
    to the trace.  A session that is assigned a second time is therefore
    pointed at a new reader while the first one stays open. *)
Theorem assignment_never_closes_a_reader
    (env : Env) (topic : string) (partition : Z) (policy mode : string) (s : Session) :
  let kept (out : Res (option error) * Session) :=
    (forall p reader,
       readers (world s) !! p = Some reader ->
       readers (world out.2) !! p = Some reader) /\
    (forall p,
       kafka.ReaderClose p ∈ trace (world out.2) ->
       kafka.ReaderClose p ∈ trace (world s)) in
  kept (GroupClient.TopicAssign env topic partition policy mode s) /\
  kept (LookbackClient.TopicAssign env topic partition policy mode s).
Proof.
  cbn zeta. split.
  - rewrite group_assign_run. cbn zeta.
    destruct (getSASLMechanism env (client s)); cbn; [| done].
    destruct (kafka.Validate _); cbn; [done |].
    split.
    + intros p reader Hp. by apply lookup_app_l_Some.
    + intros p. by apply (added_calls_exclude not_reader_close).
  - rewrite lookback_assign_run.
    pose proof (resolve_inv env topic partition policy
      {| client := set_TimestampMode mode (client s); world := world s |})
      as (_ & _ & Hrs & (calls & Htr & Hcalls) & _).
    destruct (LookbackClient.resolve _ _ _ _ _) as [[[[off | err] deferred] | r |] s2];
      cbn in *; rewrite ?Hrs, ?Htr.
    + destruct (kafka.Validate _); cbn; rewrite ?Hrs, ?Htr.
      * split; [done |].
        intros p Hin. rewrite <- app_assoc in Hin.
        apply (added_calls_exclude not_reader_close) in Hin; [done | | done].
        rewrite forallb_app, Hcalls. by destruct deferred.
      * split.
        -- intros p reader Hp. by apply lookup_app_l_Some.
        -- intros p Hin. rewrite <- app_assoc in Hin.
           apply (added_calls_exclude not_reader_close) in Hin; [done | | done].
           rewrite forallb_app, Hcalls. by destruct deferred.
    + split; [done |].
      intros p Hin. rewrite <- app_assoc in Hin.
      apply (added_calls_exclude not_reader_close) in Hin; [done | | done].
      rewrite forallb_app, Hcalls. by destruct deferred.
    + split; [done |]. intros p. by apply (added_calls_exclude not_reader_close).
    + split; [done |]. intros p. by apply (added_calls_exclude not_reader_close).
Qed.

Lemma assignment_never_closes_a_reader_witness :
  exists s1 s2,
    GroupClient.TopicAssign sample.env "metrics" 0 "latest" "now" sample.connected
      = (Done None, s1) /\
    GroupClient.TopicAssign sample.env "alerts" 0 "latest" "now" s1 = (Done None, s2) /\
    Reader (client s1) = Some 0%nat /\
    Reader (client s2) = Some 1%nat /\
    kafka.closed <$> readers (world s2) !! 0%nat = Some false.
Proof.
  eassert (Hrun1 : GroupClient.TopicAssign sample.env "metrics" 0 "latest" "now"
                     sample.connected = (Done None, _)) by (vm_compute; reflexivity).
  match type of Hrun1 with
  | _ = (_, ?s1) =>
      eassert (Hrun2 : GroupClient.TopicAssign sample.env "alerts" 0 "latest" "now" s1
                       = (Done None, _)) by (vm_compute; reflexivity);
      pose proof (proj1 (proj1 (assignment_never_closes_a_reader sample.env "alerts" 0
                                  "latest" "now" s1))) as Hkept
  end.
  eexists _, _. split; [exact Hrun1 |]. split; [exact Hrun2 |].
  split; [reflexivity |]. split; [reflexivity |].
  rewrite Hrun2 in Hkept.
  exact (f_equal (fmap kafka.closed) (Hkept 0%nat _ eq_refl)).
Defined.

(** X11. In part_000 the [SetOffset] of an assignment cannot fail: the
    reader it is called on is the one the call has just opened, which
    belongs to no group and is not closed.  So an assignment that returns
    an error has failed while resolving the offset for "earliest", and
    has neither opened a reader nor touched the session's [Reader]; the
    branch that reports "unable to set offset" is never taken. *)
Theorem set_offset_never_fails
    (env : Env) (topic : string) (partition : Z) (policy mode : string)
    (s s' : Session) (err : error) :
  LookbackClient.TopicAssign env topic partition policy mode s = (Done (Some err), s') ->
  policy = "earliest" /\
  (exists cause, OffsetResolutionFailed cause err) /\
  (forall cause, err <> SetOffsetFailed cause) /\
  Reader (client s') = Reader (client s) /\
  readers (world s') = readers (world s).
Proof.
  intros Hrun. rewrite lookback_assign_run in Hrun.
  pose proof (resolve_inv env topic partition policy
    {| client := set_TimestampMode mode (client s); world := world s |})
    as (Hc & _ & Hrs & _ & Hres).
  destruct (String.eqb_spec policy "earliest") as [-> | Hp].
  - destruct (LookbackClient.resolve _ _ _ _ _) as [[[[off | e] deferred] | r |] s2];
      cbn in *; try discriminate.
    + by destruct (kafka.Validate _).
    + injection Hrun as -> <-. cbn. rewrite Hc, Hrs.
      split; [done |]. split; [done |]. split; [| done].
      intros cause ->. destruct Hres as [c Hres]. inversion Hres.
  - rewrite resolve_other in Hrun by done. cbn in Hrun.
    by destruct (kafka.Validate _).
Qed.

Lemma set_offset_never_fails_witness :
  exists err s',
    LookbackClient.TopicAssign sample.unreachable "metrics" 3 "earliest" "now"
      sample.bound = (Done (Some err), s') /\
    Reader (client s') = Some 0%nat.
Proof.
  eassert (Hrun : LookbackClient.TopicAssign sample.unreachable "metrics" 3 "earliest"
                    "now" sample.bound = (Done (Some _), _))
    by (vm_compute; reflexivity).
  eexists _, _. split; [exact Hrun |].
  exact (proj1 (proj2 (proj2 (proj2 (set_offset_never_fails _ _ _ _ _ _ _ _ Hrun))))).
Defined.

(** X12. In part_000, for watermarks [0 <= low <= high], assignment with
    policy "earliest" starts the reader at [max low (high - 100)]: never
    before the low watermark, never after the high one, and at most 100
    messages behind it. *)
Theorem earliest_replays_at_most_100
    (env : Env) (topic : string) (partition : Z) (mode : string) (s : Session)
    (d : ptr) (conn : kafka.Conn) (low high : Z) :
  Dialer (client s) = Some d ->
  dial_leader env network (BootstrapServers (client s)) topic partition = inl conn ->
  kafka.offsets conn = inl (low, high) ->
  0 <= low <= high ->
  high <= int64_max ->
  exists start s',
    LookbackClient.TopicAssign env topic partition "earliest" mode s = (Done None, s') /\
    kafka.SetOffset (length (readers (world s))) start ∈ trace (world s') /\
    start = Z.max low (high - 100) /\
    low <= start <= high /\
    high - start <= 100.
Proof.
  intros Hd Hl Ho Hlow Hhigh. unfold int64_max in Hhigh.
  exists (Z.max low (high - 100)). eexists. split; [| split].
  - rewrite lookback_assign_run.
    erewrite resolve_earliest by (cbn; eassumption). cbn zeta.
    rewrite Validate_lookback, (dial_leader_addressable _ _ _ _ _ _ Hl).
    rewrite !sub64_exact by (unfold int64_min, int64_max, maxEarliest; lia).
    unfold maxEarliest.
    replace (if (high - low >? 100)%Z then high - 100 else low)
      with (Z.max low (high - 100))
      by (destruct (Z.gtb_spec (high - low) 100); lia).
    reflexivity.
  - cbn. rewrite !elem_of_app, !elem_of_cons. right. right. by left.
  - lia.
Qed.

Lemma earliest_replays_at_most_100_witness :
  exists s',
    LookbackClient.TopicAssign sample.env "metrics" 3 "earliest" "now" sample.connected
      = (Done None, s') /\
    kafka.SetOffset 0%nat 400 ∈ trace (world s').
Proof.
  destruct (earliest_replays_at_most_100 sample.env "metrics" 3 "now" sample.connected
              0%nat (sample.watermarks 5 500) 5 500 eq_refl eq_refl eq_refl
              ltac:(lia) ltac:(unfold int64_max; lia))
    as (start & s' & Hrun & Hin & -> & _).
  exists s'. split; [exact Hrun | exact Hin].
Defined.

(** X13. In part_000 assignment on a session whose dialer was never
    built: with policy "earliest" the call faults at the leader dial,
    having changed only the timestamp mode; with any other policy and a
    topic-partition the library accepts it goes through, and the reader
    it opens, having been given a nil dialer, dials through the
    library's default dialer, which has neither a SASL mechanism nor a
    TLS configuration, so none of the session's credentials or TLS
    settings reach it; with any other policy and a topic-partition the
    library refuses, [NewReader] panics, and only the timestamp mode has
    changed. *)
Theorem assignment_without_dialer
    (env : Env) (topic : string) (partition : Z) (policy mode : string) (s : Session) :
  Dialer (client s) = None ->
  let s1 := {| client := set_TimestampMode mode (client s); world := world s |} in
  (policy = "earliest" ->
   LookbackClient.TopicAssign env topic partition policy mode s
   = (Panic nil_dereference, s1)) /\
  (policy <> "earliest" ->
   kafka.addressable topic partition = true ->
   exists s' reader,
     LookbackClient.TopicAssign env topic partition policy mode s = (Done None, s') /\
     Reader (client s') = Some (length (readers (world s))) /\
     readers (world s') !! length (readers (world s)) = Some reader /\
     kafka.Dialer_ (kafka.config reader) = Some kafka.DefaultDialer /\
     kafka.SASLMechanism kafka.default_dialer = None /\
     kafka.TLS kafka.default_dialer = None /\
     dialers (world s') = dialers (world s)) /\
  (policy <> "earliest" ->
   kafka.addressable topic partition = false ->
   exists reason,
     LookbackClient.TopicAssign env topic partition policy mode s = (Panic reason, s1)).
Proof.
  intros Hd s1. split; [| split].
  - intros ->. rewrite lookback_assign_run. by rewrite resolve_nil_dialer.
  - intros Hp Hok. eexists _, _. split.
    + rewrite lookback_assign_run, resolve_other by done. cbn zeta.
      rewrite Validate_lookback, Hok. reflexivity.
    + cbn. split; [done |]. split; [apply lookup_fresh |]. cbn. by rewrite Hd.
  - intros Hp Hno. eexists.
    rewrite lookback_assign_run, resolve_other by done. cbn zeta.
    rewrite Validate_lookback, Hno. subst s1. destruct s as [c [ds rs tr]].
    unfold logged. cbn. by rewrite app_nil_r.
Qed.

Lemma assignment_without_dialer_witness :
  (LookbackClient.TopicAssign sample.env "metrics" 3 "earliest" "now"
     {| client := sample.fresh "PLAIN"; world := empty_world |}).1
  = Panic nil_dereference /\
  (LookbackClient.TopicAssign sample.env "metrics" 3 "latest" "now"
     {| client := sample.fresh "PLAIN"; world := empty_world |}).1
  = Done None /\
  (LookbackClient.TopicAssign sample.env "" 3 "latest" "now"
     {| client := sample.fresh "PLAIN"; world := empty_world |}).1
  = Panic "cannot create a new kafka reader with an empty topic".
Proof.
  pose proof (assignment_without_dialer sample.env "metrics" 3 "earliest" "now"
                {| client := sample.fresh "PLAIN"; world := empty_world |} eq_refl)
    as [Hfault _].
  pose proof (assignment_without_dialer sample.env "metrics" 3 "latest" "now"
                {| client := sample.fresh "PLAIN"; world := empty_world |} eq_refl)
    as (_ & Hother & _).
  pose proof (assignment_without_dialer sample.env "" 3 "latest" "now"
                {| client := sample.fresh "PLAIN"; world := empty_world |} eq_refl)
    as (_ & _ & Hrefused).
  split; [| split].
  - by rewrite (Hfault eq_refl).
  - destruct (Hother ltac:(discriminate) eq_refl) as (s' & reader & Hrun & _).
    by rewrite Hrun.
  - destruct (Hrefused ltac:(discriminate) eq_refl) as (reason & Hrun).
    rewrite Hrun. vm_compute in Hrun. by injection Hrun as <-.
Defined.

(** X14. In part_000 the builder and assignment compose: after
    [NewConnection] has accepted the credentials, assignment with policy
    "earliest" dials the leader through the dialer that call allocated,
    and the reader it opens is configured with the same dialer. *)
Theorem connection_then_assignment
    (env : Env) (topic : string) (partition : Z) (mode : string) (s : Session)
    (mechanism : option sasl.Mechanism) (conn : kafka.Conn) (low high : Z) :
  getSASLMechanism env (client s) = inl mechanism ->
  dial_leader env network (BootstrapServers (client s)) topic partition = inl conn ->
  kafka.offsets conn = inl (low, high) ->
  let d := length (dialers (world s)) in
  exists s1 r s2 reader,
    LookbackClient.NewConnection env s = (Done None, s1) /\
    LookbackClient.TopicAssign env topic partition "earliest" mode s1 = (Done r, s2) /\
    dialers (world s2) !! d = Some (lookback_dialer (client s) mechanism) /\
    kafka.DialLeader d network (BootstrapServers (client s)) topic partition
      ∈ trace (world s2) /\
    readers (world s2) !! length (readers (world s)) = Some reader /\
    kafka.Dialer_ (kafka.config reader) = Some (kafka.At d).
Proof.
  intros Hm Hl Ho d. eexists _, _, _, _. split; [| split].
  - by rewrite NewConnection_run, Hm.
  - rewrite lookback_assign_run.
    erewrite (resolve_earliest _ _ _ _ d) by (cbn; first [eassumption | reflexivity]).
    cbn zeta. rewrite Validate_lookback, (dial_leader_addressable _ _ _ _ _ _ Hl).
    reflexivity.
  - cbn. split; [apply lookup_fresh |]. split.
    + rewrite !elem_of_app, !elem_of_cons. left. right. by left.
    + split; [apply lookup_fresh | done].
Qed.

Lemma connection_then_assignment_witness :
  exists s1 s2,
    LookbackClient.NewConnection sample.env
      {| client := sample.fresh "PLAIN"; world := empty_world |} = (Done None, s1) /\
    LookbackClient.TopicAssign sample.env "metrics" 3 "earliest" "now" s1
      = (Done None, s2) /\
    kafka.DialLeader 0%nat "tcp" "broker-1:9092,broker-2:9092" "metrics" 3
      ∈ trace (world s2).
Proof.
  destruct (connection_then_assignment sample.env "metrics" 3 "now"
              {| client := sample.fresh "PLAIN"; world := empty_world |}
              _ (sample.watermarks 5 500) 5 500 eq_refl eq_refl eq_refl)
    as (s1 & r & s2 & reader & Hrun1 & Hrun2 & _ & Hdial & _).
  exists s1, s2. split; [exact Hrun1 |]. split; [| exact Hdial].
  rewrite Hrun2. f_equal. f_equal.
  rewrite NewConnection_run in Hrun1. injection Hrun1 as <-.
  vm_compute in Hrun2. by injection Hrun2 as <- _.
Defined.

(** X15. In client.go assignment asks no broker for any policy.  Once
    the builder has accepted the credentials, for partition 0 of a named
    topic the only library call is [NewReader], for a reader of group
    "kafka-datasource" with the given topic and partition and without
    periodic commits, whose start offset is the first-offset sentinel
    exactly for policy "earliest" and the last-offset sentinel otherwise.
    For any other partition, and for a topic without a name, [NewReader]
    refuses the configuration and the call panics, the dialer built and
    the timestamp mode set, no reader opened; for a named topic and a
    partition from 1 up to the largest the library knows, the reason is
    that a partition and a group were both given. *)
Theorem group_assignment_uses_sentinels
    (env : Env) (topic : string) (partition : Z) (policy mode : string) (s : Session)
    (mechanism : option sasl.Mechanism) :
  getSASLMechanism env (client s) = inl mechanism ->
  let p := length (readers (world s)) in
  let built := with_new_dialer (group_dialer (client s) mechanism)
                 {| client := set_TimestampMode mode (client s); world := world s |} in
  (topic <> "" -> partition = 0 ->
   exists s' reader,
     GroupClient.TopicAssign env topic partition policy mode s = (Done None, s') /\
     trace (world s') = (trace (world s) ++ [kafka.NewReader p])%list /\
     Reader (client s') = Some p /\
     readers (world s') !! p = Some reader /\
     kafka.GroupID (kafka.config reader) = "kafka-datasource" /\
     kafka.Topic (kafka.config reader) = topic /\
     kafka.Partition_ (kafka.config reader) = partition /\
     kafka.CommitInterval (kafka.config reader) = 0 /\
     (policy = "earliest" ->
      kafka.StartOffset (kafka.config reader) = kafka.FirstOffset) /\
     (policy <> "earliest" ->
      kafka.StartOffset (kafka.config reader) = kafka.LastOffset)) /\
  (topic = "" \/ partition <> 0 ->
   exists reason,
     GroupClient.TopicAssign env topic partition policy mode s = (Panic reason, built)) /\
  (topic <> "" -> 0 < partition < kafka.MaxInt32 ->
   GroupClient.TopicAssign env topic partition policy mode s
   = (Panic "either Partition or GroupID may be specified, but not both", built)).
Proof.
  intros Hm p built. split; [| split].
  - intros Htopic ->. eexists _, _. split.
    + rewrite group_assign_run, Hm. cbn zeta. rewrite Validate_group.
      unfold group_addressable. apply String.eqb_neq in Htopic. rewrite Htopic.
      reflexivity.
    + cbn. do 2 (split; [done |]). split; [apply lookup_fresh |].
      cbn. do 4 (split; [done |]). split.
      * by intros ->.
      * intros Hp. apply String.eqb_neq in Hp. rewrite Hp.
        by destruct (policy =? "latest").
  - intros Hbad. eexists.
    rewrite group_assign_run, Hm. cbn zeta. rewrite Validate_group.
    replace (group_addressable topic partition) with false; [reflexivity |].
    unfold group_addressable. destruct Hbad as [-> | Hne]; [done |].
    apply Z.eqb_neq in Hne. rewrite Hne. by rewrite andb_false_r.
  - intros _ Hrange.
    rewrite group_assign_run, Hm. cbn zeta. rewrite Validate_group.
    unfold group_addressable.
    destruct (Z.eqb_spec partition 0) as [? | _]; [lia |]. rewrite andb_false_r.
    destruct (Z.ltb_spec partition 0); [lia |].
    destruct (Z.leb_spec kafka.MaxInt32 partition); [lia |]. reflexivity.
Qed.

Lemma group_assignment_uses_sentinels_witness :
  (exists s',
     GroupClient.TopicAssign sample.env "metrics" 0 "earliest" "now" sample.connected
       = (Done None, s') /\
     trace (world s') = [kafka.NewReader 0%nat] /\
     kafka.StartOffset ∘ kafka.config <$> readers (world s') !! 0%nat = Some (-2)) /\
  (GroupClient.TopicAssign sample.env "metrics" 3 "earliest" "now" sample.connected).1
  = Panic "either Partition or GroupID may be specified, but not both".
Proof.
  split.
  - destruct (group_assignment_uses_sentinels sample.env "metrics" 0 "earliest" "now"
                sample.connected _ eq_refl)
      as [Hok _].
    destruct (Hok ltac:(discriminate) eq_refl)
      as (s' & reader & Hrun & Htrace & _ & Hlook & _ & _ & _ & _ & Hfirst & _).
    exists s'. split; [exact Hrun |]. split; [exact Htrace |].
    pose proof (f_equal (fmap (kafka.StartOffset ∘ kafka.config)) Hlook) as Hstart.
    cbn in Hstart. rewrite (Hfirst eq_refl) in Hstart. exact Hstart.
  - destruct (group_assignment_uses_sentinels sample.env "metrics" 3 "earliest" "now"
                sample.connected _ eq_refl)
      as (_ & _ & Hboth).
    rewrite Hboth; [reflexivity | discriminate | unfold kafka.MaxInt32; lia].
Defined.

(** ** Pulling, continued *)

(** X16. When the read itself fails (a cancelled context, a closed
    reader, a broker error), a pull returns the zero message and an error
    without consulting the decoder.  part_000 wraps the cause, so
    [errors.Unwrap] recovers it; client.go formats it with the verb for
    values, and the error it returns wraps nothing. *)
Theorem failed_read_returns_zero_message
    (env : Env) (s : Session) (p : ptr) (reader : kafka.Reader)
    (cause : error) (rest : list (kafka.Message + error)) :
  Reader (client s) = Some p ->
  readers (world s) !! p = Some reader ->
  kafka.inbox reader = inr cause :: rest ->
  GroupClient.ConsumerPull env s
    = (Done (zero_message, Some (GroupReadFailed cause)), consumed p reader rest s) /\
  LookbackClient.ConsumerPull env s
    = (Done (zero_message, Some (LookbackReadFailed cause)), consumed p reader rest s) /\
  Unwrap (GroupReadFailed cause) = None /\
  Unwrap (LookbackReadFailed cause) = Some cause.
Proof.
  intros Hp Hr Hin.
  unfold GroupClient.ConsumerPull, LookbackClient.ConsumerPull.
  unmonad. cbn. rewrite Hp. cbn. rewrite Hr. cbn. by rewrite Hin.
Qed.

Lemma failed_read_returns_zero_message_witness :
  let cancelled : kafka.Reader :=
    {| kafka.config := kafka.config sample.bound_reader;
       kafka.offset := 7;
       kafka.closed := false;
       kafka.inbox := [inr (LibError "context canceled")] |} in
  let s := {| client := client sample.bound;
              world := {| dialers := []; readers := [cancelled]; trace := [] |} |} in
  (LookbackClient.ConsumerPull sample.env s).1
  = Done (zero_message, Some (LookbackReadFailed (LibError "context canceled"))).
Proof.
  intros cancelled s.
  destruct (failed_read_returns_zero_message sample.env s 0%nat cancelled
              (LibError "context canceled") [] eq_refl eq_refl eq_refl)
    as (_ & Hrun & _).
  by rewrite Hrun.
Defined.



Lemma pull_n_messages pull msgs :
  (forall s p reader msg rest,
     Reader (client s) = Some p ->
     readers (world s) !! p = Some reader ->
     kafka.inbox reader = inl msg :: rest ->
     pull s = (Done (pulled msg), consumed p reader rest s)) ->
  forall s p reader rest,
    Reader (client s) = Some p ->
    readers (world s) !! p = Some reader ->
    kafka.inbox reader = (deliveries msgs ++ rest)%list ->
    exists s',
      pull_n pull (length msgs) s = (Done (map pulled msgs), s') /\
      client s' = client s /\
      dialers (world s') = dialers (world s) /\
      trace (world s') =
        (trace (world s) ++ replicate (length msgs) (kafka.ReadMessage p))%list /\
      exists reader',
        readers (world s') !! p = Some reader' /\
        kafka.inbox reader' = rest /\
        kafka.closed reader' = kafka.closed reader.
Proof.
  intros Hpull. induction msgs as [| msg msgs IH]; intros s p reader rest Hp Hr Hin.
  - exists s. cbn. split; [done |]. split; [done |]. split; [done |].
    split; [by rewrite app_nil_r |]. by exists reader.
  - destruct (consumed_usable s p reader (deliveries msgs ++ rest) Hp Hr)
      as (Hp1 & reader1 & Hr1 & Hin1 & Hcl1).
    destruct (IH _ p reader1 rest Hp1 Hr1 Hin1)
      as (s' & Hrun & Hc & Hd & Htr & reader' & Hr' & Hin' & Hcl').
    exists s'. split.
    + cbn [length pull_n]. unfold mbind at 1, M_bind at 1.
      rewrite (Hpull s p reader msg (deliveries msgs ++ rest)%list) by done.
      unfold mbind at 1, M_bind at 1. by rewrite Hrun.
    + split; [by rewrite Hc |]. split; [by rewrite Hd |]. split.
      * rewrite Htr. cbn. by rewrite <- app_assoc.
      * exists reader'. by rewrite Hcl', Hcl1.
Qed.

(** X18. Pulls deliver in order and independently of one another: when
    the bound reader holds the messages [msgs] and then [rest], as many
    pulls as there are messages return, in that order, each message
    decoded or its decode error; afterwards the client is unchanged, the
    reader is as open as before and holds [rest], and the trace has one
    read per pull.  So a rejected body affects only the pull that met
    it. *)
Theorem pulls_deliver_in_order
    (env : Env) (msgs : list kafka.Message) (s : Session) (p : ptr)
    (reader : kafka.Reader) (rest : list (kafka.Message + error)) :
  Reader (client s) = Some p ->
  readers (world s) !! p = Some reader ->
  kafka.inbox reader = (deliveries msgs ++ rest)%list ->
  let after (pull : M (KafkaMessage * option error)) :=
    exists s',
      pull_n pull (length msgs) s = (Done (map pulled msgs), s') /\
      client s' = client s /\
      dialers (world s') = dialers (world s) /\
      trace (world s') =
        (trace (world s) ++ replicate (length msgs) (kafka.ReadMessage p))%list /\
      exists reader',
        readers (world s') !! p = Some reader' /\
        kafka.inbox reader' = rest /\
        kafka.closed reader' = kafka.closed reader in
  after (GroupClient.ConsumerPull env) /\ after (LookbackClient.ConsumerPull env).
Proof.
  intros Hp Hr Hin. cbn zeta. split.
  - apply (pull_n_messages (GroupClient.ConsumerPull env) msgs); [| done..].
    intros. by apply (pull_run env).
  - apply (pull_n_messages (LookbackClient.ConsumerPull env) msgs); [| done..].
    intros. by apply (pull_run env).
Qed.

Lemma pulls_deliver_in_order_witness :
  exists s',
    pull_n (LookbackClient.ConsumerPull sample.env) 2 sample.bound
    = (Done [ ({| Value := Some sample.zero_value; Timestamp := 0; Offset := 0 |},
               Some (DecodeError (json.UnmarshalTypeError "string" "float64")));
              ({| Value := Some sample.numeric_value; Timestamp := 1800; Offset := 8 |},
               None) ], s').
Proof.
  destruct (pulls_deliver_in_order sample.env
              [ {| kafka.Value := sample.text_body; kafka.Offset := 7; kafka.Time := 1700 |};
                {| kafka.Value := sample.numeric_body; kafka.Offset := 8;
                   kafka.Time := 1800 |} ]
              sample.bound 0%nat sample.bound_reader [] eq_refl eq_refl eq_refl)
    as [_ (s' & Hrun & _)].
  exists s'. refine (eq_trans Hrun _). vm_compute. reflexivity.
Defined.

(** ** Disposal, continued *)

(** X19. On a session with a bound reader [Dispose] does the same in both
    files: it calls [Close] on that reader once and changes nothing else,
    neither the client, whose [Reader] field stays bound, nor any other
    reader.  A further call closes the same reader again.  In part_000 a
    session without a reader is left exactly as it was. *)
Theorem dispose_closes_the_bound_reader (s : Session) :
  (Reader (client s) = None -> LookbackClient.Dispose s = (Done tt, s)) /\
  (forall p reader,
     Reader (client s) = Some p ->
     readers (world s) !! p = Some reader ->
     let s1 := disposed p reader s in
     GroupClient.Dispose s = (Done tt, s1) /\
     LookbackClient.Dispose s = (Done tt, s1) /\
     client s1 = client s /\
     kafka.closed <$> readers (world s1) !! p = Some true /\
     (forall q, q <> p -> readers (world s1) !! q = readers (world s) !! q) /\
     trace (world s1) = (trace (world s) ++ [kafka.ReaderClose p])%list /\
     exists s2,
       GroupClient.Dispose s1 = (Done tt, s2) /\
       LookbackClient.Dispose s1 = (Done tt, s2) /\
       trace (world s2)
         = (trace (world s) ++ [kafka.ReaderClose p; kafka.ReaderClose p])%list).
Proof.
  split.
  - intros Hn. unfold LookbackClient.Dispose. unmonad. cbn. by rewrite Hn.
  - intros p reader Hp Hr s1.
    assert (Hstep : forall t rd,
              Reader (client t) = Some p -> readers (world t) !! p = Some rd ->
              GroupClient.Dispose t = (Done tt, disposed p rd t) /\
              LookbackClient.Dispose t = (Done tt, disposed p rd t)).
    { intros t rd Ht Hrd. unfold GroupClient.Dispose, LookbackClient.Dispose.
      unfold mbind, M_bind, get_client. rewrite Ht.
      by rewrite (ReaderClose_run t p rd Hrd). }
    assert (Hr1 : readers (world s1) !! p =
              Some {| kafka.config := kafka.config reader;
                      kafka.offset := kafka.offset reader;
                      kafka.closed := true;
                      kafka.inbox := kafka.inbox reader |}).
    { cbn. apply list_lookup_insert_eq. by eapply lookup_lt_Some. }
    destruct (Hstep s reader Hp Hr) as [Hg Hl].
    destruct (Hstep s1 _ Hp Hr1) as [Hg1 Hl1].
    split; [done |]. split; [done |]. split; [done |].
    split; [by rewrite Hr1 |]. split.
    + intros q Hq. cbn. by apply list_lookup_insert_ne.
    + split; [done |]. eexists. split; [exact Hg1 |]. split; [exact Hl1 |].
      cbn. by rewrite <- app_assoc.
Qed.

Lemma dispose_closes_the_bound_reader_witness :
  exists s1,
    GroupClient.Dispose sample.bound = (Done tt, s1) /\
    LookbackClient.Dispose sample.bound = (Done tt, s1) /\
    trace (world s1) = [kafka.ReaderClose 0%nat] /\
    LookbackClient.Dispose {| client := sample.fresh "PLAIN"; world := empty_world |}
    = (Done tt, {| client := sample.fresh "PLAIN"; world := empty_world |}).
Proof.
  destruct (proj2 (dispose_closes_the_bound_reader sample.bound) 0%nat
              sample.bound_reader eq_refl eq_refl)
    as (Hg & Hl & _ & _ & _ & Htrace & _).
  eexists. split; [exact Hg |]. split; [exact Hl |]. split; [exact Htrace |].
  exact (proj1 (dispose_closes_the_bound_reader
                  {| client := sample.fresh "PLAIN"; world := empty_world |}) eq_refl).
Defined.

(** ** The broker list of a reader *)

Lemma rev_app_append a b t :
  (String.rev_app a b ++ t)%string = String.rev_app a (b ++ t)%string.
Proof. revert b. induction a as [| c a IH]; intros b; [done |]. cbn. by rewrite IH. Qed.

Lemma concat_split_on sep acc s :
  String.concat (String sep EmptyString) (split_on sep acc s) = String.rev_app acc s.
Proof.
  revert acc. induction s as [| c s IH]; intros acc; cbn [split_on]; [done |].
  destruct (Ascii.eqb_spec c sep) as [-> | Hne]; [| by rewrite IH].
  cbn [String.concat].
  destruct (split_on sep EmptyString s) as [| x xs] eqn:Hsplit;
    [by apply split_on_nonempty in Hsplit |].
  rewrite <- Hsplit, IH. unfold String.rev. rewrite rev_app_append. done.
Qed.

Lemma occurs_rev_app c a b :
  occurs c (String.rev_app a b) = occurs c a || occurs c b.
Proof.
  revert b. induction a as [| x a IH]; intros b; [done |].
  cbn. rewrite IH. cbn. by destruct (Ascii.eqb x c), (occurs c a), (occurs c b).
Qed.

Lemma split_on_separator_free sep acc s :
  occurs sep acc = false ->
  Forall (fun b => occurs sep b = false) (split_on sep acc s).
Proof.
  revert acc. induction s as [| c s IH]; intros acc Hacc; cbn [split_on].
  - constructor; [| done]. unfold String.rev. by rewrite occurs_rev_app, Hacc.
  - destruct (Ascii.eqb_spec c sep) as [-> | Hne].
    + constructor; [| by apply IH].
      unfold String.rev. by rewrite occurs_rev_app, Hacc.
    + apply IH. cbn. rewrite Hacc. by apply Ascii.eqb_neq in Hne as ->.
Qed.

(** X20. The reader either [newReader] opens (for a topic-partition
    the library accepts: partition 0 of a named topic in client.go, a
    named topic and a partition number below [MaxInt32] in part_000) is
    given the bootstrap string cut at its commas: the list of brokers is
    never empty, no broker contains a comma, and joining the brokers with
    commas gives the bootstrap string back.  (An empty bootstrap string
    gives the one broker "".) *)
Theorem reader_brokers_are_the_bootstrap_list
    (env : Env) (topic : string) (partition off : Z) (s : Session) :
  let p := length (readers (world s)) in
  let well_cut (out : Res ptr * Session) :=
    out.1 = Done p /\
    exists reader,
      readers (world out.2) !! p = Some reader /\
      kafka.Brokers (kafka.config reader) <> [] /\
      Forall comma_free (kafka.Brokers (kafka.config reader)) /\
      String.concat "," (kafka.Brokers (kafka.config reader))
        = BootstrapServers (client s) in
  (group_addressable topic partition = true ->
   well_cut (GroupClient.newReader env topic partition off s)) /\
  (kafka.addressable topic partition = true ->
   well_cut (LookbackClient.newReader env topic partition s)).
Proof.
  cbn zeta. destruct (newReader_run env topic partition off s) as [-> ->].
  rewrite !NewReader_run, Validate_group, Validate_lookback.
  split; intros ->; (split; [done |]); eexists; (split; [apply lookup_fresh |]); cbn;
    (split; [apply split_on_nonempty |]);
    (split; [by apply split_on_separator_free | apply concat_split_on]).
Qed.

Lemma reader_brokers_are_the_bootstrap_list_witness :
  exists reader,
    readers (world (LookbackClient.newReader sample.env "metrics" 3 sample.connected).2)
      !! 0%nat = Some reader /\
    kafka.Brokers (kafka.config reader) = ["broker-1:9092"; "broker-2:9092"] /\
    String.concat "," (kafka.Brokers (kafka.config reader)) = "broker-1:9092,broker-2:9092".
Proof.
  destruct (proj2 (reader_brokers_are_the_bootstrap_list sample.env "metrics" 3 0
                     sample.connected) eq_refl)
    as (_ & reader & Hlook & _ & _ & Hjoin).
  exists reader. split; [exact Hlook |]. split; [| exact Hjoin].
  vm_compute in Hlook. by injection Hlook as <-.
Defined.
